(** * Chain parameters of the Bitmark node (src/chainparams.h, src/chainparams.cpp)

    A shallow embedding of the chain parameter registry: the three parameter
    sets (main network, test network, regression test), their constructors
    with the genesis block and its assertions, the process-wide selector
    [pCurrentParams], and the start-up resolution from the command line.

    Integers are [Z] with the wrap-around of their C++ type written out,
    byte vectors are [list Z] with every element in [0, 256), and a
    [uint256] is the [Z] below [2^256] whose little-endian bytes are the
    256-bit value. *)

From Stdlib Require Import ZArith List String Ascii Lia.
From stdpp Require Import list.
Import ListNotations.
Local Open Scope Z_scope.

(** ** SHA-256 *)

(** Modelled from the spec: the "cryptographic hash" of the block and
    transaction module (hash.h, which is not part of the sources at hand) is
    the double SHA-256 of Bitcoin-derived nodes. The four hash literals of
    chainparams.cpp are reproduced by it, see [genesis_literals] below. *)
Module Sha256.

Definition add32 (x y : Z) : Z := (x + y) mod 2^32.
Definition not32 (x : Z) : Z := Z.lxor x (2^32 - 1).
Definition shr (n x : Z) : Z := Z.shiftr x n.
Definition rotr (n x : Z) : Z :=
  Z.lor (Z.shiftr x n) (Z.shiftl x (32 - n) mod 2^32).

Definition Ch (x y z : Z) : Z := Z.lxor (Z.land x y) (Z.land (not32 x) z).
Definition Maj (x y z : Z) : Z :=
  Z.lxor (Z.lxor (Z.land x y) (Z.land x z)) (Z.land y z).
Definition Sigma0 (x : Z) : Z := Z.lxor (Z.lxor (rotr 2 x) (rotr 13 x)) (rotr 22 x).
Definition Sigma1 (x : Z) : Z := Z.lxor (Z.lxor (rotr 6 x) (rotr 11 x)) (rotr 25 x).
Definition sigma0 (x : Z) : Z := Z.lxor (Z.lxor (rotr 7 x) (rotr 18 x)) (shr 3 x).
Definition sigma1 (x : Z) : Z := Z.lxor (Z.lxor (rotr 17 x) (rotr 19 x)) (shr 10 x).

(** The round constants are the first 32 bits of the fractional parts of the
    cube roots of the first 64 primes, the initial state those of the square
    roots of the first 8 primes; both tables are computed rather than typed. *)
Definition is_prime (n : Z) : bool :=
  forallb (fun d => negb (n mod Z.of_nat d =? 0)) (seq 2 (Z.to_nat n - 2)).

Definition first_primes (k : nat) : list Z :=
  take k (filter (fun n => is_prime n = true) (map Z.of_nat (seq 2 400))).

Definition icbrt (n : Z) : Z :=
  fold_left
    (fun r b => let r' := r + 2 ^ Z.of_nat b in if r' * r' * r' <=? n then r' else r)
    (rev (seq 0 40)) 0.

Definition K : list Z :=
  Eval vm_compute in map (fun p => icbrt (p * 2^96) mod 2^32) (first_primes 64).

Definition H0 : list Z :=
  Eval vm_compute in map (fun p => Z.sqrt (p * 2^64) mod 2^32) (first_primes 8).

(** Big-endian packing of bytes into words and back. *)
Definition be_to_Z (bs : list Z) : Z := fold_left (fun acc b => acc * 256 + b) bs 0.

Fixpoint Z_to_be (n : nat) (x : Z) : list Z :=
  match n with
  | O => []
  | S n' => Z_to_be n' (x / 256) ++ [x mod 256]
  end.

Fixpoint words_of (n : nat) (bs : list Z) : list Z :=
  match n with
  | O => []
  | S n' => be_to_Z (take 4 bs) :: words_of n' (drop 4 bs)
  end.

(** Padding: a one bit, zeros up to 56 modulo 64, the bit length on 8 bytes. *)
Definition pad (msg : list Z) : list Z :=
  let len := Z.of_nat (length msg) in
  msg ++ [128] ++ repeat 0 (Z.to_nat ((55 - len) mod 64)) ++ Z_to_be 8 (8 * len).

(** Message schedule; [w] holds the words computed so far, latest first. *)
Fixpoint schedule (n : nat) (w : list Z) : list Z :=
  match n with
  | O => rev w
  | S n' =>
      let wt := add32 (add32 (sigma1 (nth 1 w 0)) (nth 6 w 0))
                      (add32 (sigma0 (nth 14 w 0)) (nth 15 w 0)) in
      schedule n' (wt :: w)
  end.

Record state := State { sa : Z; sb : Z; sc : Z; sd : Z; se : Z; sf : Z; sg : Z; sh : Z }.

Definition round (s : state) (kw : Z * Z) : state :=
  let t1 := add32 (add32 (add32 (sh s) (Sigma1 (se s))) (Ch (se s) (sf s) (sg s)))
                  (add32 (fst kw) (snd kw)) in
  let t2 := add32 (Sigma0 (sa s)) (Maj (sa s) (sb s) (sc s)) in
  State (add32 t1 t2) (sa s) (sb s) (sc s) (add32 (sd s) t1) (se s) (sf s) (sg s).

Definition compress (s : state) (block : list Z) : state :=
  let w := schedule 48 (rev (words_of 16 block)) in
  let r := fold_left round (combine K w) s in
  State (add32 (sa s) (sa r)) (add32 (sb s) (sb r)) (add32 (sc s) (sc r))
        (add32 (sd s) (sd r)) (add32 (se s) (se r)) (add32 (sf s) (sf r))
        (add32 (sg s) (sg r)) (add32 (sh s) (sh r)).

Fixpoint blocks (n : nat) (s : state) (bs : list Z) : state :=
  match n with
  | O => s
  | S n' => blocks n' (compress s (take 64 bs)) (drop 64 bs)
  end.

Definition init : state :=
  State (nth 0 H0 0) (nth 1 H0 0) (nth 2 H0 0) (nth 3 H0 0)
        (nth 4 H0 0) (nth 5 H0 0) (nth 6 H0 0) (nth 7 H0 0).

Definition digest (msg : list Z) : list Z :=
  let p := pad msg in
  let s := blocks (length p / 64)%nat init p in
  flat_map (Z_to_be 4) [sa s; sb s; sc s; sd s; se s; sf s; sg s; sh s].

End Sha256.

(** ** What chainparams.cpp uses of the block, script and utility modules *)

(** Modelled from the spec: 6 EXTERNAL INTERFACES lists, as consumed,
    "transaction and block construction, Merkle-root computation, block-hash
    computation, a script-building facility, a hex-decoding utility" and "a
    256-bit hash type"; core.h, script.h, util.h and uint256.h are not part
    of the sources at hand. The definitions of this module follow 4.1 of the
    spec (one coinbase transaction, the message as spend-script data, the
    Merkle root over the transaction, the block hash from version, previous
    block, Merkle root, time, bits and nonce) with the serialisation of
    Bitcoin-derived nodes. *)
Module Core.

Definition bytes := list Z.
Definition uint256 := Z.

Fixpoint Z_to_le (n : nat) (x : Z) : bytes :=
  match n with
  | O => []
  | S n' => x mod 256 :: Z_to_le n' (x / 256)
  end.

Definition le_to_Z (bs : bytes) : Z := fold_right (fun b acc => b + 256 * acc) 0 bs.

(** Modelled from the spec: the "cryptographic hash" of hash.h. [Hash] is
    SHA-256 applied twice, read as a little-endian 256-bit number. *)
Definition Hash (bs : bytes) : uint256 := le_to_Z (Sha256.digest (Sha256.digest bs)).

Definition bytes_of_string (s : string) : bytes :=
  map (fun a => Z.of_N (N_of_ascii a)) (list_ascii_of_string s).

Definition strlen (s : string) : Z := Z.of_nat (String.length s).

(** [ParseHex]: pairs of hexadecimal digits, up to the first character that
    is not one. *)
Definition HexDigit (a : ascii) : option Z :=
  let n := Z.of_N (N_of_ascii a) in
  if (48 <=? n) && (n <=? 57) then Some (n - 48)
  else if (97 <=? n) && (n <=? 102) then Some (n - 87)
  else if (65 <=? n) && (n <=? 70) then Some (n - 55)
  else None.

Fixpoint ParseHex_aux (l : list ascii) (pending : option Z) : bytes :=
  match l with
  | [] => []
  | a :: l' =>
      match HexDigit a, pending with
      | None, _ => []
      | Some d, None => ParseHex_aux l' (Some d)
      | Some d, Some h => (16 * h + d) :: ParseHex_aux l' None
      end
  end.

Definition ParseHex (s : string) : bytes := ParseHex_aux (list_ascii_of_string s) None.

(** *** Scripts *)

Definition CScript := bytes.
Definition OP_PUSHDATA1 : Z := 76.
Definition OP_PUSHDATA2 : Z := 77.
Definition OP_PUSHDATA4 : Z := 78.
Definition OP_1 : Z := 81.
Definition OP_CHECKSIG : Z := 172.

(** [CScript::operator<<(const std::vector<unsigned char>&)] *)
Definition push_data (s : CScript) (b : bytes) : CScript :=
  let n := Z.of_nat (length b) in
  if n <? OP_PUSHDATA1 then s ++ [n] ++ b
  else if n <=? 255 then s ++ [OP_PUSHDATA1; n] ++ b
  else if n <=? 65535 then s ++ [OP_PUSHDATA2] ++ Z_to_le 2 n ++ b
  else s ++ [OP_PUSHDATA4] ++ Z_to_le 4 n ++ b.

(** [CScript::operator<<(opcodetype)] *)
Definition push_opcode (s : CScript) (op : Z) : CScript := s ++ [op].

(** The byte vector of a script number: little-endian magnitude with the
    sign in the top bit of the last byte. *)
Fixpoint magnitude_le (fuel : nat) (x : Z) : bytes :=
  match fuel with
  | O => []
  | S f => if x =? 0 then [] else x mod 256 :: magnitude_le f (x / 256)
  end.

Definition CScriptNum (n : Z) : bytes :=
  let m := magnitude_le 9 (Z.abs n) in
  match rev m with
  | [] => []
  | top :: rest =>
      if 128 <=? top then m ++ [if n <? 0 then 128 else 0]
      else if n <? 0 then rev rest ++ [top + 128]
      else m
  end.

(** [CScript::operator<<(int64_t)] *)
Definition push_int64 (s : CScript) (n : Z) : CScript :=
  if (n =? -1) || ((1 <=? n) && (n <=? 16)) then s ++ [n + (OP_1 - 1)]
  else push_data s (CScriptNum n).

(** *** Transactions and blocks *)

Definition COIN : Z := 100000000.

Module COutPoint.
Record t := Build { hash : uint256; n : Z }.
End COutPoint.

Module CTxIn.
Record t := Build { prevout : COutPoint.t; scriptSig : CScript; nSequence : Z }.
(** The element that [vin.resize(1)] creates: a null outpoint. *)
Definition default : t := Build (COutPoint.Build 0 (2^32 - 1)) [] (2^32 - 1).
Definition set_scriptSig (s : CScript) (i : t) : t := Build (prevout i) s (nSequence i).
End CTxIn.

Module CTxOut.
Record t := Build { nValue : Z; scriptPubKey : CScript }.
(** The element that [vout.resize(1)] creates: [SetNull]. *)
Definition default : t := Build (-1) [].
Definition set_nValue (v : Z) (o : t) : t := Build v (scriptPubKey o).
Definition set_scriptPubKey (s : CScript) (o : t) : t := Build (nValue o) s.
End CTxOut.

Module CTransaction.
Record t := Build { nVersion : Z; vin : list CTxIn.t; vout : list CTxOut.t; nLockTime : Z }.
Definition default : t := Build 1 [] [] 0.
Definition set_vin (v : list CTxIn.t) (x : t) : t := Build (nVersion x) v (vout x) (nLockTime x).
Definition set_vout (v : list CTxOut.t) (x : t) : t := Build (nVersion x) (vin x) v (nLockTime x).
End CTransaction.

Definition WriteCompactSize (n : Z) : bytes :=
  if n <? 253 then [n]
  else if n <=? 65535 then 253 :: Z_to_le 2 n
  else if n <=? 4294967295 then 254 :: Z_to_le 4 n
  else 255 :: Z_to_le 8 n.

Definition ser_script (s : CScript) : bytes := WriteCompactSize (Z.of_nat (length s)) ++ s.

Definition ser_txin (i : CTxIn.t) : bytes :=
  Z_to_le 32 (COutPoint.hash (CTxIn.prevout i)) ++ Z_to_le 4 (COutPoint.n (CTxIn.prevout i))
  ++ ser_script (CTxIn.scriptSig i) ++ Z_to_le 4 (CTxIn.nSequence i).

Definition ser_txout (o : CTxOut.t) : bytes :=
  Z_to_le 8 (CTxOut.nValue o mod 2^64) ++ ser_script (CTxOut.scriptPubKey o).

Definition ser_tx (x : CTransaction.t) : bytes :=
  Z_to_le 4 (CTransaction.nVersion x mod 2^32)
  ++ WriteCompactSize (Z.of_nat (length (CTransaction.vin x))) ++ flat_map ser_txin (CTransaction.vin x)
  ++ WriteCompactSize (Z.of_nat (length (CTransaction.vout x))) ++ flat_map ser_txout (CTransaction.vout x)
  ++ Z_to_le 4 (CTransaction.nLockTime x).

Definition tx_GetHash (x : CTransaction.t) : uint256 := Hash (ser_tx x).

Module CBlock.
Record t := Build {
  nVersion : Z;
  hashPrevBlock : uint256;
  hashMerkleRoot : uint256;
  nTime : Z;
  nBits : Z;
  nNonce : Z;
  vtx : list CTransaction.t
}.
(** A default-constructed block: [SetNull]. *)
Definition default : t := Build 2 0 0 0 0 0 [].
Definition set_nVersion (v : Z) (b : t) : t :=
  Build v (hashPrevBlock b) (hashMerkleRoot b) (nTime b) (nBits b) (nNonce b) (vtx b).
Definition set_hashPrevBlock (v : uint256) (b : t) : t :=
  Build (nVersion b) v (hashMerkleRoot b) (nTime b) (nBits b) (nNonce b) (vtx b).
Definition set_hashMerkleRoot (v : uint256) (b : t) : t :=
  Build (nVersion b) (hashPrevBlock b) v (nTime b) (nBits b) (nNonce b) (vtx b).
Definition set_nTime (v : Z) (b : t) : t :=
  Build (nVersion b) (hashPrevBlock b) (hashMerkleRoot b) v (nBits b) (nNonce b) (vtx b).
Definition set_nBits (v : Z) (b : t) : t :=
  Build (nVersion b) (hashPrevBlock b) (hashMerkleRoot b) (nTime b) v (nNonce b) (vtx b).
Definition set_nNonce (v : Z) (b : t) : t :=
  Build (nVersion b) (hashPrevBlock b) (hashMerkleRoot b) (nTime b) (nBits b) v (vtx b).
Definition set_vtx (v : list CTransaction.t) (b : t) : t :=
  Build (nVersion b) (hashPrevBlock b) (hashMerkleRoot b) (nTime b) (nBits b) (nNonce b) v.
End CBlock.

(** One level of the Merkle tree: neighbours are hashed in pairs, the last
    one with itself when the level has an odd number of nodes. *)
Fixpoint merkle_level (l : list uint256) : list uint256 :=
  match l with
  | [] => []
  | [a] => [Hash (Z_to_le 32 a ++ Z_to_le 32 a)]
  | a :: b :: l' => Hash (Z_to_le 32 a ++ Z_to_le 32 b) :: merkle_level l'
  end.

Fixpoint merkle_root (fuel : nat) (l : list uint256) : uint256 :=
  match l, fuel with
  | [], _ => 0
  | [a], _ => a
  | _, O => 0
  | _, S f => merkle_root f (merkle_level l)
  end.

(** Modelled from the spec: [CBlock::BuildMerkleTree] of core.h, the "Merkle
    root over the (single) transaction" and, for more transactions, the root
    of the tree of their hashes. *)
Definition BuildMerkleTree (b : CBlock.t) : uint256 :=
  let leaves := map tx_GetHash (CBlock.vtx b) in
  merkle_root (length leaves) leaves.

(** Modelled from the spec: [CBlock::GetHash] of core.h, "the block hash from
    version, zero previous-block reference, Merkle root, time, bits, and
    nonce": the hash of the 80 bytes of the header. *)
Definition ser_header (b : CBlock.t) : bytes :=
  Z_to_le 4 (CBlock.nVersion b mod 2^32) ++ Z_to_le 32 (CBlock.hashPrevBlock b)
  ++ Z_to_le 32 (CBlock.hashMerkleRoot b)
  ++ Z_to_le 4 (CBlock.nTime b) ++ Z_to_le 4 (CBlock.nBits b) ++ Z_to_le 4 (CBlock.nNonce b).

Definition GetHash (b : CBlock.t) : uint256 := Hash (ser_header b).

End Core.

Import Core.

(** ** chainparams.h *)

(** [enum Network] *)
Inductive Network := MAIN | TESTNET | REGTEST | MAX_NETWORK_TYPES.

(** [enum Base58Type] *)
Inductive Base58Type :=
  PUBKEY_ADDRESS | SCRIPT_ADDRESS | SECRET_KEY | EXT_PUBLIC_KEY | EXT_SECRET_KEY | MAX_BASE58_TYPES.

(** The integer value of an enumerator, as used to index [base58Prefixes]. *)
Definition Base58Type_index (t : Base58Type) : nat :=
  match t with
  | PUBKEY_ADDRESS => 0
  | SCRIPT_ADDRESS => 1
  | SECRET_KEY => 2
  | EXT_PUBLIC_KEY => 3
  | EXT_SECRET_KEY => 4
  | MAX_BASE58_TYPES => 5
  end.

Definition MESSAGE_START_SIZE : nat := 4.

Record CDNSSeedData := { name : string; host : string }.

(** Modelled from the spec: "peer-address records", each with an address, a
    port and a timestamp; [CService] and [CAddress] are declared in
    netbase.h and protocol.h, which are not part of the sources at hand.
    The port is an [unsigned short] and [nTime] an [unsigned int]. *)
Record CService := { ip : Z; port : Z }.
Record CAddress := { service : CService; nTime : Z }.

(** The class an object belongs to, which decides its virtual functions. *)
Inductive Class := CMainParams | CTestNetParams | CRegTestParams.

(** The data members of [CChainParams], followed by those that [CMainParams]
    adds ([genesis], [vFixedSeeds]) and by the dynamic class of the object. *)
Record CChainParams := Build_CChainParams {
  hashGenesisBlock : uint256;
  pchMessageStart : list Z;
  vAlertPubKey : bytes;
  nDefaultPort : Z;
  nRPCPort : Z;
  bnProofOfWorkLimit : Z;
  nSubsidyHalvingInterval : Z;
  strDataDir : string;
  vSeeds : list CDNSSeedData;
  base58Prefixes : list bytes;
  fStrictChainId : bool;
  nAuxpowChainId : Z;
  nStartAuxPow : Z;
  nEquihashN : Z;
  nEquihashK : Z;
  fMineBlocksOnDemand : bool;
  nForkHeight2 : Z;
  genesis : CBlock.t;
  vFixedSeeds : list CAddress;
  vptr : Class
}.

Definition set_hashGenesisBlock (v : uint256) (p : CChainParams) : CChainParams :=
  Build_CChainParams v (pchMessageStart p) (vAlertPubKey p) (nDefaultPort p) (nRPCPort p)
    (bnProofOfWorkLimit p) (nSubsidyHalvingInterval p) (strDataDir p) (vSeeds p)
    (base58Prefixes p) (fStrictChainId p) (nAuxpowChainId p) (nStartAuxPow p) (nEquihashN p)
    (nEquihashK p) (fMineBlocksOnDemand p) (nForkHeight2 p) (genesis p) (vFixedSeeds p)
    (vptr p).

Definition set_pchMessageStart (v : list Z) (p : CChainParams) : CChainParams :=
  Build_CChainParams (hashGenesisBlock p) v (vAlertPubKey p) (nDefaultPort p) (nRPCPort p)
    (bnProofOfWorkLimit p) (nSubsidyHalvingInterval p) (strDataDir p) (vSeeds p)
    (base58Prefixes p) (fStrictChainId p) (nAuxpowChainId p) (nStartAuxPow p) (nEquihashN p)
    (nEquihashK p) (fMineBlocksOnDemand p) (nForkHeight2 p) (genesis p) (vFixedSeeds p)
    (vptr p).

Definition set_vAlertPubKey (v : bytes) (p : CChainParams) : CChainParams :=
  Build_CChainParams (hashGenesisBlock p) (pchMessageStart p) v (nDefaultPort p)
    (nRPCPort p) (bnProofOfWorkLimit p) (nSubsidyHalvingInterval p) (strDataDir p) (vSeeds p)
    (base58Prefixes p) (fStrictChainId p) (nAuxpowChainId p) (nStartAuxPow p) (nEquihashN p)
    (nEquihashK p) (fMineBlocksOnDemand p) (nForkHeight2 p) (genesis p) (vFixedSeeds p)
    (vptr p).

Definition set_nDefaultPort (v : Z) (p : CChainParams) : CChainParams :=
  Build_CChainParams (hashGenesisBlock p) (pchMessageStart p) (vAlertPubKey p) v
    (nRPCPort p) (bnProofOfWorkLimit p) (nSubsidyHalvingInterval p) (strDataDir p) (vSeeds p)
    (base58Prefixes p) (fStrictChainId p) (nAuxpowChainId p) (nStartAuxPow p) (nEquihashN p)
    (nEquihashK p) (fMineBlocksOnDemand p) (nForkHeight2 p) (genesis p) (vFixedSeeds p)
    (vptr p).

Definition set_nRPCPort (v : Z) (p : CChainParams) : CChainParams :=
  Build_CChainParams (hashGenesisBlock p) (pchMessageStart p) (vAlertPubKey p)
    (nDefaultPort p) v (bnProofOfWorkLimit p) (nSubsidyHalvingInterval p) (strDataDir p)
    (vSeeds p) (base58Prefixes p) (fStrictChainId p) (nAuxpowChainId p) (nStartAuxPow p)
    (nEquihashN p) (nEquihashK p) (fMineBlocksOnDemand p) (nForkHeight2 p) (genesis p)
    (vFixedSeeds p) (vptr p).

Definition set_bnProofOfWorkLimit (v : Z) (p : CChainParams) : CChainParams :=
  Build_CChainParams (hashGenesisBlock p) (pchMessageStart p) (vAlertPubKey p)
    (nDefaultPort p) (nRPCPort p) v (nSubsidyHalvingInterval p) (strDataDir p) (vSeeds p)
    (base58Prefixes p) (fStrictChainId p) (nAuxpowChainId p) (nStartAuxPow p) (nEquihashN p)
    (nEquihashK p) (fMineBlocksOnDemand p) (nForkHeight2 p) (genesis p) (vFixedSeeds p)
    (vptr p).

Definition set_nSubsidyHalvingInterval (v : Z) (p : CChainParams) : CChainParams :=
  Build_CChainParams (hashGenesisBlock p) (pchMessageStart p) (vAlertPubKey p)
    (nDefaultPort p) (nRPCPort p) (bnProofOfWorkLimit p) v (strDataDir p) (vSeeds p)
    (base58Prefixes p) (fStrictChainId p) (nAuxpowChainId p) (nStartAuxPow p) (nEquihashN p)
    (nEquihashK p) (fMineBlocksOnDemand p) (nForkHeight2 p) (genesis p) (vFixedSeeds p)
    (vptr p).

Definition set_strDataDir (v : string) (p : CChainParams) : CChainParams :=
  Build_CChainParams (hashGenesisBlock p) (pchMessageStart p) (vAlertPubKey p)
    (nDefaultPort p) (nRPCPort p) (bnProofOfWorkLimit p) (nSubsidyHalvingInterval p) v
    (vSeeds p) (base58Prefixes p) (fStrictChainId p) (nAuxpowChainId p) (nStartAuxPow p)
    (nEquihashN p) (nEquihashK p) (fMineBlocksOnDemand p) (nForkHeight2 p) (genesis p)
    (vFixedSeeds p) (vptr p).

Definition set_vSeeds (v : list CDNSSeedData) (p : CChainParams) : CChainParams :=
  Build_CChainParams (hashGenesisBlock p) (pchMessageStart p) (vAlertPubKey p)
    (nDefaultPort p) (nRPCPort p) (bnProofOfWorkLimit p) (nSubsidyHalvingInterval p)
    (strDataDir p) v (base58Prefixes p) (fStrictChainId p) (nAuxpowChainId p) (nStartAuxPow p)
    (nEquihashN p) (nEquihashK p) (fMineBlocksOnDemand p) (nForkHeight2 p) (genesis p)
    (vFixedSeeds p) (vptr p).

Definition set_base58Prefixes (v : list bytes) (p : CChainParams) : CChainParams :=
  Build_CChainParams (hashGenesisBlock p) (pchMessageStart p) (vAlertPubKey p)
    (nDefaultPort p) (nRPCPort p) (bnProofOfWorkLimit p) (nSubsidyHalvingInterval p)
    (strDataDir p) (vSeeds p) v (fStrictChainId p) (nAuxpowChainId p) (nStartAuxPow p)
    (nEquihashN p) (nEquihashK p) (fMineBlocksOnDemand p) (nForkHeight2 p) (genesis p)
    (vFixedSeeds p) (vptr p).

Definition set_fStrictChainId (v : bool) (p : CChainParams) : CChainParams :=
  Build_CChainParams (hashGenesisBlock p) (pchMessageStart p) (vAlertPubKey p)
    (nDefaultPort p) (nRPCPort p) (bnProofOfWorkLimit p) (nSubsidyHalvingInterval p)
    (strDataDir p) (vSeeds p) (base58Prefixes p) v (nAuxpowChainId p) (nStartAuxPow p)
    (nEquihashN p) (nEquihashK p) (fMineBlocksOnDemand p) (nForkHeight2 p) (genesis p)
    (vFixedSeeds p) (vptr p).

Definition set_nAuxpowChainId (v : Z) (p : CChainParams) : CChainParams :=
  Build_CChainParams (hashGenesisBlock p) (pchMessageStart p) (vAlertPubKey p)
    (nDefaultPort p) (nRPCPort p) (bnProofOfWorkLimit p) (nSubsidyHalvingInterval p)
    (strDataDir p) (vSeeds p) (base58Prefixes p) (fStrictChainId p) v (nStartAuxPow p)
    (nEquihashN p) (nEquihashK p) (fMineBlocksOnDemand p) (nForkHeight2 p) (genesis p)
    (vFixedSeeds p) (vptr p).

Definition set_genesis (v : CBlock.t) (p : CChainParams) : CChainParams :=
  Build_CChainParams (hashGenesisBlock p) (pchMessageStart p) (vAlertPubKey p)
    (nDefaultPort p) (nRPCPort p) (bnProofOfWorkLimit p) (nSubsidyHalvingInterval p)
    (strDataDir p) (vSeeds p) (base58Prefixes p) (fStrictChainId p) (nAuxpowChainId p)
    (nStartAuxPow p) (nEquihashN p) (nEquihashK p) (fMineBlocksOnDemand p) (nForkHeight2 p) v
    (vFixedSeeds p) (vptr p).

Definition set_vFixedSeeds (v : list CAddress) (p : CChainParams) : CChainParams :=
  Build_CChainParams (hashGenesisBlock p) (pchMessageStart p) (vAlertPubKey p)
    (nDefaultPort p) (nRPCPort p) (bnProofOfWorkLimit p) (nSubsidyHalvingInterval p)
    (strDataDir p) (vSeeds p) (base58Prefixes p) (fStrictChainId p) (nAuxpowChainId p)
    (nStartAuxPow p) (nEquihashN p) (nEquihashK p) (fMineBlocksOnDemand p) (nForkHeight2 p)
    (genesis p) v (vptr p).

Definition set_vptr (v : Class) (p : CChainParams) : CChainParams :=
  Build_CChainParams (hashGenesisBlock p) (pchMessageStart p) (vAlertPubKey p)
    (nDefaultPort p) (nRPCPort p) (bnProofOfWorkLimit p) (nSubsidyHalvingInterval p)
    (strDataDir p) (vSeeds p) (base58Prefixes p) (fStrictChainId p) (nAuxpowChainId p)
    (nStartAuxPow p) (nEquihashN p) (nEquihashK p) (fMineBlocksOnDemand p) (nForkHeight2 p)
    (genesis p) (vFixedSeeds p) v.

(** *** The inline member functions *)

Definition HashGenesisBlock (p : CChainParams) : uint256 := hashGenesisBlock p.
Definition MessageStart (p : CChainParams) : list Z := pchMessageStart p.
Definition AlertKey (p : CChainParams) : bytes := vAlertPubKey p.
Definition GetDefaultPort (p : CChainParams) : Z := nDefaultPort p.
Definition ProofOfWorkLimit (p : CChainParams) : Z := bnProofOfWorkLimit p.
Definition SubsidyHalvingInterval (p : CChainParams) : Z := nSubsidyHalvingInterval p.
Definition SubsidyInterimInterval (p : CChainParams) : Z := nSubsidyHalvingInterval p ÷ 2.
Definition DataDir (p : CChainParams) : string := strDataDir p.
Definition DNSSeeds (p : CChainParams) : list CDNSSeedData := vSeeds p.
Definition RPCPort (p : CChainParams) : Z := nRPCPort p.
Definition StrictChainId (p : CChainParams) : bool := fStrictChainId p.
Definition GetAuxpowChainId (p : CChainParams) : Z := nAuxpowChainId p.
Definition EquihashN (p : CChainParams) : Z := nEquihashN p.
Definition EquihashK (p : CChainParams) : Z := nEquihashK p.
Definition MineBlocksOnDemand (p : CChainParams) : bool := fMineBlocksOnDemand p.

(** [base58Prefixes[type]]; [None] is a read past the end of the array. *)
Definition Base58Prefix (type : Base58Type) (p : CChainParams) : option bytes :=
  base58Prefixes p !! Base58Type_index type.

(** The virtual functions, dispatched on the class of the object:
    [GenesisBlock] and [FixedSeeds] are defined by [CMainParams] and
    inherited, [NetworkID] is overridden by each class, and
    [RequireRPCPassword] is defined by [CChainParams] and overridden by
    [CRegTestParams] alone. *)
Definition GenesisBlock (p : CChainParams) : CBlock.t := genesis p.
Definition FixedSeeds (p : CChainParams) : list CAddress := vFixedSeeds p.

Definition NetworkID (p : CChainParams) : Network :=
  match vptr p with
  | CMainParams => MAIN
  | CTestNetParams => TESTNET
  | CRegTestParams => REGTEST
  end.

Definition RequireRPCPassword (p : CChainParams) : bool :=
  match vptr p with
  | CRegTestParams => false
  | CMainParams | CTestNetParams => true
  end.

Definition GetFork2Height (p : CChainParams) : Z := nForkHeight2 p.
Definition OnFork2 (p : CChainParams) (blockHeight : Z) : bool := blockHeight >=? nForkHeight2 p.
Definition CEM_WindowLength (p : CChainParams) (blockHeight : Z) : Z :=
  if OnFork2 p blockHeight then 90 else 365.
Definition CEM_MaxNativeBlockRewardReduction (p : CChainParams) (blockHeight : Z) : Z :=
  if OnFork2 p blockHeight then 80 else 50.

(** ** chainparams.cpp *)

(** *** The environment of the constructors *)

(** An [assert] that was evaluated and held: what it compared. *)
Inductive Assertion :=
  | AssertHashGenesisBlock (computed expected : uint256)
  | AssertHashMerkleRoot (computed expected : uint256).

(** What a constructor reads from and leaves in its environment: the clock
    and the random source, as the values their successive calls return, the
    number of calls made so far, and the assertions passed so far. *)
Record World := {
  clock : nat -> Z;
  entropy : nat -> Z;
  nClockReads : nat;
  nRandDraws : nat;
  asserted : list Assertion
}.

(** A computation that may abort the process (a failed [assert]). *)
Definition Run (A : Type) : Type := World -> option (A * World).

Definition ret {A} (a : A) : Run A := fun w => Some (a, w).

Definition bind {A B} (m : Run A) (k : A -> Run B) : Run B :=
  fun w => match m w with
           | Some (a, w') => k a w'
           | None => None
           end.

Notation "'let*' x := m 'in' k" := (bind m (fun x => k))
  (at level 10, x name, m at level 100, k at level 200).

(** The three ways a constructor changes its environment. *)
Definition log_assertion (a : Assertion) (w : World) : World :=
  {| clock := clock w; entropy := entropy w;
     nClockReads := nClockReads w; nRandDraws := nRandDraws w;
     asserted := asserted w ++ [a] |}.

Definition tick_clock (w : World) : World :=
  {| clock := clock w; entropy := entropy w;
     nClockReads := S (nClockReads w); nRandDraws := nRandDraws w;
     asserted := asserted w |}.

Definition tick_rand (w : World) : World :=
  {| clock := clock w; entropy := entropy w;
     nClockReads := nClockReads w; nRandDraws := S (nRandDraws w);
     asserted := asserted w |}.

(** [assert(c)]: aborts when [c] is false, and is recorded when it holds. *)
Definition assert (c : bool) (a : Assertion) : Run unit :=
  fun w => if c then Some (tt, log_assertion a w) else None.

(** Modelled from the spec: "a monotonic/wall clock source" and "a uniform
    random-integer source" of the environment (util.h is not part of the
    sources at hand). [GetTime] returns the next reading of the clock and
    [GetRand] the next draw, whatever they are; a theorem that needs the
    draw to be in its range says so. *)
Definition GetTime : Run Z :=
  fun w => Some (clock w (nClockReads w), tick_clock w).

Definition GetRand (nMax : Z) : Run Z :=
  fun w => Some (entropy w (nRandDraws w), tick_rand w).

(** *** 256-bit numbers *)

Definition uint256_not (x : uint256) : uint256 := Z.lxor x (2^256 - 1).
Definition uint256_shr (x : uint256) (n : Z) : uint256 := Z.shiftr x n.
(** [CBigNum(uint256)]: the same number, without a bound. *)
Definition CBigNum (x : uint256) : Z := x.

(** [boost::assign::list_of] collects [int]s; assigning the list to a
    [std::vector<unsigned char>] converts each element to [unsigned char]. *)
Definition list_of (l : list Z) : bytes := map (fun x => x mod 256) l.

(** *** Main network *)

Definition pnSeed : list Z := [0xac1f1f0a; 0xae240982; 0x253b1359].

Definition nOneWeek : Z := 7 * 24 * 60 * 60.

Definition store_pchMessageStart (i : nat) (v : Z) (this : CChainParams) : CChainParams :=
  set_pchMessageStart (<[i := v]> (pchMessageStart this)) this.

Definition store_base58Prefixes (t : Base58Type) (v : bytes) (this : CChainParams) : CChainParams :=
  set_base58Prefixes (<[Base58Type_index t := v]> (base58Prefixes this)) this.

(** The coinbase transaction of a genesis block, lines 47-52 and 129-134. *)
Definition genesis_txNew (pszTimestamp : string) : CTransaction.t :=
  let txNew := CTransaction.default in
  let txNew := CTransaction.set_vin (resize 1 CTxIn.default (CTransaction.vin txNew)) txNew in
  let txNew := CTransaction.set_vout (resize 1 CTxOut.default (CTransaction.vout txNew)) txNew in
  let scriptSig :=
    push_data (push_data (push_int64 [] 486604799) (CScriptNum 4))
              (take (Z.to_nat (strlen pszTimestamp)) (bytes_of_string pszTimestamp)) in
  let txNew := CTransaction.set_vin
                 (alter (CTxIn.set_scriptSig scriptSig) 0%nat (CTransaction.vin txNew)) txNew in
  let txNew := CTransaction.set_vout
                 (alter (CTxOut.set_nValue (20 * COIN)) 0%nat (CTransaction.vout txNew)) txNew in
  let scriptPubKey :=
    push_opcode
      (push_data [] (ParseHex "04f88a76429dad346a10ecb5d36fcbf50bc2e009870e20c1a6df8db743e0b994afc1f91e079be8acc380b0ee7765519906e3d781519e9db48259f64160104939d8"))
      OP_CHECKSIG in
  CTransaction.set_vout
    (alter (CTxOut.set_scriptPubKey scriptPubKey) 0%nat (CTransaction.vout txNew)) txNew.

(** The loop of lines 76-88 over the elements of [pnSeed] that are left.
    [GetTime()] is an [int64_t] and [GetRand] a [uint64_t], so the
    difference is computed modulo [2^64]; the assignment to [nTime] keeps
    its low 32 bits. *)
Fixpoint convert_pnSeed (seeds : list Z) (this : CChainParams) : Run CChainParams :=
  match seeds with
  | [] => ret this
  | s :: rest =>
      let addr_service := {| ip := s; port := GetDefaultPort this mod 2^16 |} in
      let* now := GetTime in
      let* r := GetRand nOneWeek in
      let addr := {| service := addr_service; nTime := (now - r - nOneWeek) mod 2^32 |} in
      convert_pnSeed rest (set_vFixedSeeds (vFixedSeeds this ++ [addr]) this)
  end.

(** [CMainParams::CMainParams()] *)
Definition CMainParams_ctor (this : CChainParams) : Run CChainParams :=
  let this := set_vptr CMainParams this in
  let this := store_pchMessageStart 0 0xf9 this in
  let this := store_pchMessageStart 1 0xbe this in
  let this := store_pchMessageStart 2 0xb4 this in
  let this := store_pchMessageStart 3 0xd9 this in
  let this := set_vAlertPubKey (ParseHex "04bf5a75ff0f823840ef512b08add20bb4275ff6e097f2830ad28645e28cb5ea4dc2cfd0972b94019ad46f331b45ef4ba679f2e6c87fd19c864365fadb4f8d2269") this in
  let this := set_nDefaultPort 9265 this in
  let this := set_nRPCPort 9266 this in
  let this := set_bnProofOfWorkLimit (CBigNum (uint256_shr (uint256_not 0) 32)) this in
  let this := set_nSubsidyHalvingInterval 788000 this in
  let this := set_fStrictChainId false this in
  let this := set_nAuxpowChainId 0x005B this in
  let txNew := genesis_txNew "13/July/2014, with memory of the past, we look to the future. TDR" in
  let this := set_genesis (CBlock.set_vtx (CBlock.vtx (genesis this) ++ [txNew]) (genesis this)) this in
  let this := set_genesis (CBlock.set_hashPrevBlock 0 (genesis this)) this in
  let this := set_genesis (CBlock.set_hashMerkleRoot (BuildMerkleTree (genesis this)) (genesis this)) this in
  let this := set_genesis (CBlock.set_nVersion 1 (genesis this)) this in
  let this := set_genesis (CBlock.set_nTime 1405274442 (genesis this)) this in
  let this := set_genesis (CBlock.set_nBits 0x1d00ffff (genesis this)) this in
  let this := set_genesis (CBlock.set_nNonce 14385103 (genesis this)) this in
  let this := set_hashGenesisBlock (GetHash (genesis this)) this in
  let* _ := assert (hashGenesisBlock this =? 0xc1fb746e87e89ae75bdec2ef0639a1f6786744639ce3d0ece1dcf979b79137cb)
            (AssertHashGenesisBlock (hashGenesisBlock this) 0xc1fb746e87e89ae75bdec2ef0639a1f6786744639ce3d0ece1dcf979b79137cb) in
  let* _ := assert (CBlock.hashMerkleRoot (genesis this) =? 0xd4715adf41222fae3d4bf41af30c675bc27228233d0f3cfd4ae0ae1d3e760ba8)
            (AssertHashMerkleRoot (CBlock.hashMerkleRoot (genesis this)) 0xd4715adf41222fae3d4bf41af30c675bc27228233d0f3cfd4ae0ae1d3e760ba8) in
  let this := set_vSeeds (vSeeds this ++ [{| name := "bitmark.co"; host := "seed.bitmark.co" |}]) this in
  let this := store_base58Prefixes PUBKEY_ADDRESS (list_of [85]) this in
  let this := store_base58Prefixes SCRIPT_ADDRESS (list_of [5]) this in
  let this := store_base58Prefixes SECRET_KEY (list_of [213]) this in
  let this := store_base58Prefixes EXT_PUBLIC_KEY (list_of [0x04; 0x88; 0xB2; 0x1E]) this in
  let this := store_base58Prefixes EXT_SECRET_KEY (list_of [0x04; 0x88; 0xAD; 0xE4]) this in
  convert_pnSeed pnSeed this.

(** *** Testnet (v4) *)

(** [CTestNetParams::CTestNetParams()], after the constructor of its base
    class [CMainParams]. The [printf] of line 143 writes the hash to the
    standard output and changes nothing else. *)
Definition CTestNetParams_ctor (this : CChainParams) : Run CChainParams :=
  let* this := CMainParams_ctor this in
  let this := set_vptr CTestNetParams this in
  let this := store_pchMessageStart 0 0x0b this in
  let this := store_pchMessageStart 1 0x11 this in
  let this := store_pchMessageStart 2 0x09 this in
  let this := store_pchMessageStart 3 0x07 this in
  let this := set_vAlertPubKey (ParseHex "0468770c9d451dd5d6d373ae6096d4ab0705c4ab66e55cc25c40788580039bd04b7672322b9bd26ce22a3ad95f490d7d188a905ce30246b2425eca8cc5102190d0") this in
  let this := set_nDefaultPort 19265 this in
  let this := set_nRPCPort 19266 this in
  let this := set_bnProofOfWorkLimit (CBigNum (uint256_shr (uint256_not 0) 8)) this in
  let this := set_strDataDir "testnet4" this in
  let this := set_fStrictChainId false this in
  let this := set_nAuxpowChainId 0x005B this in
  let txNew := genesis_txNew "Testing Testnet" in
  let this := set_genesis (CBlock.set_vtx (<[0%nat := txNew]> (CBlock.vtx (genesis this))) (genesis this)) this in
  let this := set_genesis (CBlock.set_hashPrevBlock 0 (genesis this)) this in
  let this := set_genesis (CBlock.set_hashMerkleRoot (BuildMerkleTree (genesis this)) (genesis this)) this in
  let this := set_genesis (CBlock.set_nTime 1509891419 (genesis this)) this in
  let this := set_genesis (CBlock.set_nBits 0x1e0ffff0 (genesis this)) this in
  let this := set_genesis (CBlock.set_nNonce 1291475 (genesis this)) this in
  let this := set_hashGenesisBlock (GetHash (genesis this)) this in
  let* _ := assert (hashGenesisBlock this =? 0x572f069d470350b8facc52a0866671d2d3071230e4df45d193394ae153fa891d)
            (AssertHashGenesisBlock (hashGenesisBlock this) 0x572f069d470350b8facc52a0866671d2d3071230e4df45d193394ae153fa891d) in
  let this := set_vFixedSeeds [] this in
  let this := set_vSeeds [] this in
  let this := set_vSeeds (vSeeds this ++ [{| name := "bitmark.io"; host := "us.bitmark.io" |}]) this in
  let this := set_vSeeds (vSeeds this ++ [{| name := "bitmark.co"; host := "explorer.bitmark.co" |}]) this in
  let this := store_base58Prefixes PUBKEY_ADDRESS (list_of [130]) this in
  let this := store_base58Prefixes SCRIPT_ADDRESS (list_of [196]) this in
  let this := store_base58Prefixes SECRET_KEY (list_of [258]) this in
  let this := store_base58Prefixes EXT_PUBLIC_KEY (list_of [0x04; 0x35; 0x87; 0xCF]) this in
  let this := store_base58Prefixes EXT_SECRET_KEY (list_of [0x04; 0x35; 0x83; 0x94]) this in
  ret this.

(** *** Regression test *)

(** [CRegTestParams::CRegTestParams()], after the constructor of its base
    class [CTestNetParams]. *)
Definition CRegTestParams_ctor (this : CChainParams) : Run CChainParams :=
  let* this := CTestNetParams_ctor this in
  let this := set_vptr CRegTestParams this in
  let this := store_pchMessageStart 0 0xfa this in
  let this := store_pchMessageStart 1 0xbf this in
  let this := store_pchMessageStart 2 0xb5 this in
  let this := store_pchMessageStart 3 0xda this in
  let this := set_nSubsidyHalvingInterval 150 this in
  let this := set_bnProofOfWorkLimit (CBigNum (uint256_shr (uint256_not 0) 1)) this in
  let this := set_genesis (CBlock.set_nTime 1405274400 (genesis this)) this in
  let this := set_genesis (CBlock.set_nBits 0x207fffff (genesis this)) this in
  let this := set_genesis (CBlock.set_nNonce 713058 (genesis this)) this in
  let this := set_hashGenesisBlock (GetHash (genesis this)) this in
  let this := set_genesis (CBlock.set_nNonce 3 (genesis this)) this in
  let this := set_nDefaultPort 18444 this in
  let this := set_strDataDir "regtest" this in
  let this := set_fStrictChainId false this in
  let this := set_nAuxpowChainId 0x005B this in
  let* _ := assert (hashGenesisBlock this =? 0x168329a349fc93768bfb02e536bbe1e1847d77a65764564552122fa9268d8841)
            (AssertHashGenesisBlock (hashGenesisBlock this) 0x168329a349fc93768bfb02e536bbe1e1847d77a65764564552122fa9268d8841) in
  let this := set_vSeeds [] this in
  ret this.

(** *** The objects of static storage *)

(** The storage of an object of static duration before its constructor
    runs: zero-initialised, then the members with a default constructor or a
    default member initialiser ([fMineBlocksOnDemand = true]) set by it. *)
Definition static_storage : CChainParams :=
  {| hashGenesisBlock := 0;
     pchMessageStart := replicate MESSAGE_START_SIZE 0;
     vAlertPubKey := [];
     nDefaultPort := 0;
     nRPCPort := 0;
     bnProofOfWorkLimit := 0;
     nSubsidyHalvingInterval := 0;
     strDataDir := "";
     vSeeds := [];
     base58Prefixes := replicate (Base58Type_index MAX_BASE58_TYPES) [];
     fStrictChainId := false;
     nAuxpowChainId := 0;
     nStartAuxPow := 0;
     nEquihashN := 0;
     nEquihashK := 0;
     fMineBlocksOnDemand := true;
     nForkHeight2 := 0;
     genesis := CBlock.default;
     vFixedSeeds := [];
     vptr := CMainParams |}.

(** Which of the three static objects [pCurrentParams] points to. *)
Inductive ParamsPtr := addr_mainParams | addr_testNetParams | addr_regTestParams.

Record Globals := {
  mainParams : CChainParams;
  testNetParams : CChainParams;
  regTestParams : CChainParams;
  pCurrentParams : ParamsPtr
}.

(** The initialisation of the translation unit: [pCurrentParams] is
    initialised statically with the address of [mainParams], and the three
    objects are constructed in the order of their definitions. *)
Definition static_init : Run Globals :=
  let* m := CMainParams_ctor static_storage in
  let* t := CTestNetParams_ctor static_storage in
  let* r := CRegTestParams_ctor static_storage in
  ret {| mainParams := m; testNetParams := t; regTestParams := r;
         pCurrentParams := addr_mainParams |}.

(** [Params()]: the object that [pCurrentParams] points to. *)
Definition Params (g : Globals) : CChainParams :=
  match pCurrentParams g with
  | addr_mainParams => mainParams g
  | addr_testNetParams => testNetParams g
  | addr_regTestParams => regTestParams g
  end.

Definition set_pCurrentParams (p : ParamsPtr) (g : Globals) : Globals :=
  {| mainParams := mainParams g; testNetParams := testNetParams g;
     regTestParams := regTestParams g; pCurrentParams := p |}.

(** [SelectParams]; [None] is the failed [assert(false)] of the default
    case. *)
Definition SelectParams (network : Network) (g : Globals) : option Globals :=
  match network with
  | MAIN => Some (set_pCurrentParams addr_mainParams g)
  | TESTNET => Some (set_pCurrentParams addr_testNetParams g)
  | REGTEST => Some (set_pCurrentParams addr_regTestParams g)
  | MAX_NETWORK_TYPES => None
  end.

(** [SelectParamsFromCommandLine]; [GetBoolArg] is the lookup of a flag of
    the command line with its default, given by the environment. The result
    is the returned [bool] with the globals it leaves. *)
Definition SelectParamsFromCommandLine (GetBoolArg : string -> bool -> bool) (g : Globals)
  : option (bool * Globals) :=
  let fRegTest := GetBoolArg "-regtest"%string false in
  let fTestNet := GetBoolArg "-testnet"%string false in
  if fTestNet && fRegTest then Some (false, g)
  else
    match (if fRegTest then SelectParams REGTEST g
           else if fTestNet then SelectParams TESTNET g
           else SelectParams MAIN g) with
    | Some g' => Some (true, g')
    | None => None
    end.

(** [TestNet()] and [RegTest()] *)
Definition TestNet (g : Globals) : bool :=
  match NetworkID (Params g) with TESTNET => true | _ => false end.
Definition RegTest (g : Globals) : bool :=
  match NetworkID (Params g) with REGTEST => true | _ => false end.

(** The calls of the selector's interface, and what a sequence of them
    leaves: [Params()] returns a reference and writes nothing. *)
Inductive Call :=
  | Call_Params
  | Call_SelectParams (network : Network).

Definition call (c : Call) (g : Globals) : option Globals :=
  match c with
  | Call_Params => Some g
  | Call_SelectParams network => SelectParams network g
  end.

Fixpoint calls (cs : list Call) (g : Globals) : option Globals :=
  match cs with
  | [] => Some g
  | c :: cs' =>
      match call c g with
      | Some g' => calls cs' g'
      | None => None
      end
  end.

(** A world to run the constructors in: a fixed clock and a fixed draw. *)
Definition world0 : World :=
  {| clock := fun _ => 1700000000; entropy := fun _ => 123456;
     nClockReads := 0; nRandDraws := 0; asserted := [] |}.

(** ** The values the constructors build *)

(** The main object as line 73 leaves it, before the loop over [pnSeed];
    [CMainParams_ctor_line73] relates it to the constructor in any world. *)
Definition mainParams_line73 :=
  Eval vm_compute in
    match CMainParams_ctor static_storage world0 with
    | Some (p, _) => set_vFixedSeeds [] p
    | None => static_storage
    end.

(** The test and the regression test objects, which depend on no reading of
    the clock and on no draw; [CTestNetParams_ctor_runs] and
    [CRegTestParams_ctor_runs] relate them to the constructors in any world. *)
Definition testNetParams_value :=
  Eval vm_compute in
    match CTestNetParams_ctor static_storage world0 with
    | Some (p, _) => p
    | None => static_storage
    end.

Definition regTestParams_value :=
  Eval vm_compute in
    match CRegTestParams_ctor static_storage world0 with
    | Some (p, _) => p
    | None => static_storage
    end.

(** The record that the [i]-th iteration of the loop over [pnSeed] appends,
    for the element [s], when the loop starts in the world [w]. *)
Definition seed_address (defaultPort : Z) (w : World) (i : nat) (s : Z) : CAddress :=
  {| service := {| ip := s; port := defaultPort mod 2^16 |};
     nTime := (clock w (i + nClockReads w) - entropy w (i + nRandDraws w) - nOneWeek) mod 2^32 |}.

(** The world after [n] iterations of the loop. *)
Definition advance (n : nat) (w : World) : World :=
  {| clock := clock w; entropy := entropy w;
     nClockReads := n + nClockReads w; nRandDraws := n + nRandDraws w;
     asserted := asserted w |}.

Definition mainParams_value (w : World) : CChainParams :=
  set_vFixedSeeds (imap (seed_address 9265 w) pnSeed) mainParams_line73.

Definition hashGenesisBlock_main : uint256 :=
  0xc1fb746e87e89ae75bdec2ef0639a1f6786744639ce3d0ece1dcf979b79137cb.
Definition hashMerkleRoot_main : uint256 :=
  0xd4715adf41222fae3d4bf41af30c675bc27228233d0f3cfd4ae0ae1d3e760ba8.
Definition hashGenesisBlock_test : uint256 :=
  0x572f069d470350b8facc52a0866671d2d3071230e4df45d193394ae153fa891d.
Definition hashGenesisBlock_regtest : uint256 :=
  0x168329a349fc93768bfb02e536bbe1e1847d77a65764564552122fa9268d8841.

(** The assertions of the three constructors, in the order they run. *)
Definition assertions_main : list Assertion :=
  [AssertHashGenesisBlock hashGenesisBlock_main hashGenesisBlock_main;
   AssertHashMerkleRoot hashMerkleRoot_main hashMerkleRoot_main].
Definition assertions_test : list Assertion :=
  assertions_main ++ [AssertHashGenesisBlock hashGenesisBlock_test hashGenesisBlock_test].
Definition assertions_regtest : list Assertion :=
  assertions_test ++ [AssertHashGenesisBlock hashGenesisBlock_regtest hashGenesisBlock_regtest].

(** The five kinds of address that have a prefix. *)
Definition address_kinds : list Base58Type :=
  [PUBKEY_ADDRESS; SCRIPT_ADDRESS; SECRET_KEY; EXT_PUBLIC_KEY; EXT_SECRET_KEY].

(** The worlds that the three constructors leave. *)
Definition world_after_main (w : World) : World :=
  advance (length pnSeed)
    (log_assertion (AssertHashMerkleRoot hashMerkleRoot_main hashMerkleRoot_main)
       (log_assertion (AssertHashGenesisBlock hashGenesisBlock_main hashGenesisBlock_main) w)).

Definition world_after_test (w : World) : World :=
  log_assertion (AssertHashGenesisBlock hashGenesisBlock_test hashGenesisBlock_test)
    (world_after_main w).

Definition world_after_regtest (w : World) : World :=
  log_assertion (AssertHashGenesisBlock hashGenesisBlock_regtest hashGenesisBlock_regtest)
    (world_after_test w).

Definition globals_value (w : World) : Globals :=
  {| mainParams := mainParams_value w;
     testNetParams := testNetParams_value;
     regTestParams := regTestParams_value;
     pCurrentParams := addr_mainParams |}.

Definition world_after_init (w : World) : World :=
  world_after_regtest (world_after_test (world_after_main w)).


(** The network that a sequence of calls selects last, [current] when it
    selects none. *)
Fixpoint last_selected (cs : list Call) (current : Network) : Network :=
  match cs with
  | [] => current
  | Call_Params :: cs' => last_selected cs' current
  | Call_SelectParams network :: cs' => last_selected cs' network
  end.

(** A value that fits an [unsigned char]. *)
Definition is_byte (b : Z) : Prop := 0 <= b < 256.

(** * Properties *)

(** The computed tables start and end with the constants of the standard,
    and the digest of "abc" is the one the standard gives. *)
Example sha256_tables :
  nth 0 Sha256.K 0 = 0x428a2f98 /\ nth 63 Sha256.K 0 = 0xc67178f2
  /\ length Sha256.K = 64%nat
  /\ nth 0 Sha256.H0 0 = 0x6a09e667 /\ nth 7 Sha256.H0 0 = 0x5be0cd19.
Proof. repeat split; reflexivity. Qed.

Example sha256_abc :
  Sha256.digest (bytes_of_string "abc")
  = ParseHex "ba7816bf8f01cfea414140de5dae2223b00361a396177a9cb410ff61f20015ad".
Proof. vm_compute. reflexivity. Qed.

(** ** The constructors, run in any world *)

Lemma world_eq (w1 w2 : World) :
  clock w1 = clock w2 -> entropy w1 = entropy w2 ->
  nClockReads w1 = nClockReads w2 -> nRandDraws w1 = nRandDraws w2 ->
  asserted w1 = asserted w2 -> w1 = w2.
Proof. destruct w1, w2; simpl; intros; subst; reflexivity. Qed.

Lemma set_vFixedSeeds_twice (l1 l2 : list CAddress) (p : CChainParams) :
  set_vFixedSeeds l1 (set_vFixedSeeds l2 p) = set_vFixedSeeds l1 p.
Proof. reflexivity. Qed.

(** The loop appends one record per element and advances the clock and the
    random source by one call each per element. *)
Lemma convert_pnSeed_runs (seeds : list Z) :
  forall (this : CChainParams) (w : World),
    convert_pnSeed seeds this w
    = Some (set_vFixedSeeds
              (vFixedSeeds this ++ imap (seed_address (GetDefaultPort this) w) seeds) this,
            advance (length seeds) w).
Proof.
  induction seeds as [|s rest IH]; intros this w.
  - simpl. rewrite app_nil_r. destruct this, w; reflexivity.
  - cbn [convert_pnSeed]. unfold bind, GetTime, GetRand.
    rewrite IH. f_equal. f_equal.
    + rewrite set_vFixedSeeds_twice. f_equal.
      cbn [vFixedSeeds set_vFixedSeeds]. rewrite <- app_assoc. f_equal.
      cbn [imap app]. f_equal.
      apply imap_ext. intros i x _. unfold seed_address, compose. simpl.
      rewrite !Nat.add_succ_r. reflexivity.
    + apply world_eq; simpl; try reflexivity; rewrite Nat.add_succ_r; reflexivity.
Qed.

(** The main constructor reaches its loop with the object of line 73, its
    two assertions passed. *)
Lemma CMainParams_ctor_line73 (w : World) :
  CMainParams_ctor static_storage w
  = convert_pnSeed pnSeed mainParams_line73
      (log_assertion (AssertHashMerkleRoot hashMerkleRoot_main hashMerkleRoot_main)
         (log_assertion (AssertHashGenesisBlock hashGenesisBlock_main hashGenesisBlock_main) w)).
Proof.
  (* By computation: both sides run to the same value, the readings of the
     clock and the draws staying symbolic. *)
  exact_no_check (eq_refl (CMainParams_ctor static_storage w)).
Qed.

Lemma CMainParams_ctor_runs (w : World) :
  CMainParams_ctor static_storage w = Some (mainParams_value w, world_after_main w).
Proof.
  rewrite CMainParams_ctor_line73, convert_pnSeed_runs. reflexivity.
Qed.

(** The test and the regression test constructors, by computation as
    [CMainParams_ctor_line73]. *)
Lemma CTestNetParams_ctor_runs (w : World) :
  CTestNetParams_ctor static_storage w = Some (testNetParams_value, world_after_test w).
Proof. exact_no_check (eq_refl (CTestNetParams_ctor static_storage w)). Qed.

Lemma CRegTestParams_ctor_runs (w : World) :
  CRegTestParams_ctor static_storage w = Some (regTestParams_value, world_after_regtest w).
Proof. exact_no_check (eq_refl (CRegTestParams_ctor static_storage w)). Qed.


Lemma static_init_runs (w : World) :
  static_init w = Some (globals_value w, world_after_init w).
Proof.
  unfold static_init, bind.
  rewrite CMainParams_ctor_runs. cbv beta iota.
  rewrite CTestNetParams_ctor_runs. cbv beta iota.
  rewrite CRegTestParams_ctor_runs. reflexivity.
Qed.

Lemma asserted_after_main (w : World) :
  asserted (world_after_main w) = asserted w ++ assertions_main.
Proof. cbn. rewrite <- app_assoc. reflexivity. Qed.

Lemma asserted_after_test (w : World) :
  asserted (world_after_test w) = asserted w ++ assertions_test.
Proof.
  unfold world_after_test, log_assertion, assertions_test. cbn [asserted].
  rewrite asserted_after_main, <- app_assoc. reflexivity.
Qed.

Lemma asserted_after_regtest (w : World) :
  asserted (world_after_regtest w) = asserted w ++ assertions_regtest.
Proof.
  unfold world_after_regtest, log_assertion, assertions_regtest. cbn [asserted].
  rewrite asserted_after_test, <- app_assoc. reflexivity.
Qed.

(** ** The genesis blocks *)

(** C1, as amended. In every world each of the three constructors runs to
    its end, no assertion failing, and leaves in [hashGenesisBlock] the
    literal that its own assertion names. For the main and the test network
    that literal is the hash of the genesis block the object holds. The
    Merkle root is compared with a literal by the main constructor alone,
    and the main genesis block has that Merkle root; the assertions that
    run are exactly [assertions_main], [assertions_test] and
    [assertions_regtest]. *)
Theorem genesis_literals (w : World) :
  (exists p w',
      CMainParams_ctor static_storage w = Some (p, w')
      /\ HashGenesisBlock p = hashGenesisBlock_main
      /\ GetHash (GenesisBlock p) = hashGenesisBlock_main
      /\ CBlock.hashMerkleRoot (GenesisBlock p) = hashMerkleRoot_main
      /\ asserted w' = asserted w ++ assertions_main)
  /\ (exists p w',
      CTestNetParams_ctor static_storage w = Some (p, w')
      /\ HashGenesisBlock p = hashGenesisBlock_test
      /\ GetHash (GenesisBlock p) = hashGenesisBlock_test
      /\ asserted w' = asserted w ++ assertions_test)
  /\ (exists p w',
      CRegTestParams_ctor static_storage w = Some (p, w')
      /\ HashGenesisBlock p = hashGenesisBlock_regtest
      /\ asserted w' = asserted w ++ assertions_regtest).
Proof.
  split; [|split].
  - exists (mainParams_value w), (world_after_main w).
    split; [apply CMainParams_ctor_runs|].
    split; [reflexivity|].
    split; [change (GenesisBlock (mainParams_value w)) with (genesis mainParams_line73);
            vm_compute; reflexivity|].
    split; [reflexivity|apply asserted_after_main].
  - exists testNetParams_value, (world_after_test w).
    split; [apply CTestNetParams_ctor_runs|].
    split; [reflexivity|].
    split; [vm_compute; reflexivity|apply asserted_after_test].
  - exists regTestParams_value, (world_after_regtest w).
    split; [apply CRegTestParams_ctor_runs|].
    split; [reflexivity|apply asserted_after_regtest].
Qed.

(** C1, as stated, fails for the test network: the construction of the test
    parameters compares the Merkle root of the genesis block it leaves with
    no literal at all. *)
Lemma testnet_merkle_root_unchecked :
  ~ (exists p w' expected,
        CTestNetParams_ctor static_storage world0 = Some (p, w')
        /\ In (AssertHashMerkleRoot (CBlock.hashMerkleRoot (GenesisBlock p)) expected)
              (asserted w')).
Proof.
  intros (p & w' & expected & Hrun & Hin).
  rewrite CTestNetParams_ctor_runs in Hrun. injection Hrun as <- <-.
  rewrite asserted_after_test in Hin. cbn in Hin.
  destruct Hin as [H|[H|[H|[]]]]; discriminate H.
Qed.

(** C2, at the regression test parameters: the constructor stores the hash
    of the header with the nonce 713058 and then sets the nonce of the block
    to 3, so that the stored hash is not the hash of the stored block. For
    the main and the test parameters the two agree. *)
Theorem regtest_hash_not_of_stored_genesis (w : World) :
  (exists p w',
      CRegTestParams_ctor static_storage w = Some (p, w')
      /\ HashGenesisBlock p = GetHash (CBlock.set_nNonce 713058 (GenesisBlock p))
      /\ CBlock.nNonce (GenesisBlock p) = 3
      /\ HashGenesisBlock p
         = 0x168329a349fc93768bfb02e536bbe1e1847d77a65764564552122fa9268d8841
      /\ GetHash (GenesisBlock p)
         = 0x3cde16e7a8d5d827ce2af23e4228697209f4113f16d3f366c454155acbaa7e69
      /\ HashGenesisBlock p <> GetHash (GenesisBlock p))
  /\ (exists p w',
      CMainParams_ctor static_storage w = Some (p, w')
      /\ HashGenesisBlock p = GetHash (GenesisBlock p))
  /\ (exists p w',
      CTestNetParams_ctor static_storage w = Some (p, w')
      /\ HashGenesisBlock p = GetHash (GenesisBlock p)).
Proof.
  split; [|split].
  - exists regTestParams_value, (world_after_regtest w).
    split; [apply CRegTestParams_ctor_runs|].
    split; [vm_compute; reflexivity|].
    split; [reflexivity|].
    split; [reflexivity|].
    split; [vm_compute; reflexivity|].
    vm_compute. discriminate.
  - exists (mainParams_value w), (world_after_main w).
    split; [apply CMainParams_ctor_runs|].
    change (GenesisBlock (mainParams_value w)) with (genesis mainParams_line73).
    vm_compute. reflexivity.
  - exists testNetParams_value, (world_after_test w).
    split; [apply CTestNetParams_ctor_runs|].
    vm_compute. reflexivity.
Qed.

(** ** The selector *)

Lemma SelectParams_objects (network : Network) (g g' : Globals) :
  SelectParams network g = Some g' ->
  mainParams g' = mainParams g /\ testNetParams g' = testNetParams g
  /\ regTestParams g' = regTestParams g.
Proof. destruct network; simpl; intros H; inversion H; subst; auto. Qed.

Lemma calls_objects (cs : list Call) :
  forall g g' : Globals,
    calls cs g = Some g' ->
    mainParams g' = mainParams g /\ testNetParams g' = testNetParams g
    /\ regTestParams g' = regTestParams g.
Proof.
  induction cs as [|c cs IH]; intros g g' H; simpl in H.
  - inversion H; subst; auto.
  - destruct (call c g) as [g1|] eqn:Hc; [|discriminate H].
    destruct (IH _ _ H) as (Hm & Ht & Hr).
    destruct c; simpl in Hc.
    + inversion Hc; subst; auto.
    + destruct (SelectParams_objects _ _ _ Hc) as (Hm' & Ht' & Hr').
      rewrite Hm, Ht, Hr; auto.
Qed.

Lemma calls_Params (k : nat) (g : Globals) : calls (repeat Call_Params k) g = Some g.
Proof. induction k as [|k IH]; simpl; [reflexivity|exact IH]. Qed.

(** The network that an object of static storage answers, once constructed. *)
Lemma NetworkID_after_calls (w : World) (cs : list Call) (g1 : Globals) :
  calls cs (globals_value w) = Some g1 ->
  NetworkID (mainParams g1) = MAIN /\ NetworkID (testNetParams g1) = TESTNET
  /\ NetworkID (regTestParams g1) = REGTEST.
Proof.
  intros H. destruct (calls_objects _ _ _ H) as (Hm & Ht & Hr).
  rewrite Hm, Ht, Hr. repeat split; reflexivity.
Qed.

(** C3. After the static initialisation and any calls of the selector, the
    resolution from the command line fails exactly when both flags are set,
    and then leaves the globals as they were; otherwise it succeeds and the
    active parameters are those of the regression test when [-regtest] is
    set, else of the test network when [-testnet] is set, else of the main
    network. *)
Theorem SelectParamsFromCommandLine_resolves (w : World) :
  exists g w',
    static_init w = Some (g, w')
    /\ forall (cs : list Call) (g1 : Globals),
        calls cs g = Some g1 ->
        forall GetBoolArg : string -> bool -> bool,
          let fRegTest := GetBoolArg "-regtest"%string false in
          let fTestNet := GetBoolArg "-testnet"%string false in
          (fRegTest = true /\ fTestNet = true ->
           SelectParamsFromCommandLine GetBoolArg g1 = Some (false, g1))
          /\ (~ (fRegTest = true /\ fTestNet = true) ->
              exists g2,
                SelectParamsFromCommandLine GetBoolArg g1 = Some (true, g2)
                /\ NetworkID (Params g2)
                   = (if fRegTest then REGTEST else if fTestNet then TESTNET else MAIN))
          /\ (forall ok g2,
                SelectParamsFromCommandLine GetBoolArg g1 = Some (ok, g2) ->
                (ok = false <-> fRegTest = true /\ fTestNet = true)).
Proof.
  exists (globals_value w), (world_after_init w).
  split; [apply static_init_runs|].
  intros cs g1 Hcs GetBoolArg fRegTest fTestNet.
  destruct (NetworkID_after_calls _ _ _ Hcs) as (Hm & Ht & Hr).
  unfold SelectParamsFromCommandLine. fold fRegTest fTestNet.
  destruct fRegTest, fTestNet; cbn [andb SelectParams]; (split; [|split]).
  all: try (intros [? ?]; congruence).
  all: try (intros _; eexists; split; [reflexivity|]; unfold Params; cbn; assumption).
  all: try (intros _; reflexivity).
  all: try (intros Hno; exfalso; apply Hno; split; reflexivity).
  all: intros ok g2 Heq; inversion Heq; subst; split; intros H;
       try discriminate H; try reflexivity; try (destruct H; discriminate);
       split; reflexivity.
Qed.

Lemma SelectParamsFromCommandLine_resolves_world0 :
  SelectParamsFromCommandLine (fun _ _ => true) (globals_value world0)
  = Some (false, globals_value world0)
  /\ exists g2,
      SelectParamsFromCommandLine (fun arg _ => String.eqb arg "-regtest") (globals_value world0)
      = Some (true, g2)
      /\ NetworkID (Params g2) = REGTEST.
Proof.
  destruct (SelectParamsFromCommandLine_resolves world0) as (g & w' & Hinit & H).
  rewrite static_init_runs in Hinit. inversion Hinit; subst g w'.
  split.
  - apply (H [] (globals_value world0) eq_refl (fun _ _ => true)). split; reflexivity.
  - apply (H [] (globals_value world0) eq_refl (fun arg _ => String.eqb arg "-regtest")).
    intros [_ Hf]. discriminate Hf.
Defined.

(** C4. [pCurrentParams] is initialised to the main parameters. After any
    calls of the selector, [SelectParams] with one of the three networks
    succeeds and makes the parameters of that network the active ones, and
    no number of calls of [Params()] changes the globals. *)
Theorem SelectParams_selects (w : World) :
  exists g w',
    static_init w = Some (g, w')
    /\ pCurrentParams g = addr_mainParams
    /\ NetworkID (Params g) = MAIN
    /\ forall (cs : list Call) (g1 : Globals),
        calls cs g = Some g1 ->
        forall N : Network,
          N <> MAX_NETWORK_TYPES ->
          exists g2,
            SelectParams N g1 = Some g2
            /\ NetworkID (Params g2) = N
            /\ forall k : nat, calls (repeat Call_Params k) g2 = Some g2.
Proof.
  exists (globals_value w), (world_after_init w).
  split; [apply static_init_runs|].
  split; [reflexivity|]. split; [reflexivity|].
  intros cs g1 Hcs N HN.
  destruct (NetworkID_after_calls _ _ _ Hcs) as (Hm & Ht & Hr).
  destruct N; try congruence;
    (eexists; split; [reflexivity|]; split; [unfold Params; cbn; assumption|]);
    intros k; apply calls_Params.
Qed.

Lemma SelectParams_selects_world0 :
  exists g2,
    SelectParams TESTNET (globals_value world0) = Some g2
    /\ NetworkID (Params g2) = TESTNET
    /\ forall k : nat, calls (repeat Call_Params k) g2 = Some g2.
Proof.
  destruct (SelectParams_selects world0) as (g & w' & Hinit & _ & _ & H).
  rewrite static_init_runs in Hinit. inversion Hinit; subst g w'.
  apply (H [] (globals_value world0) eq_refl TESTNET). discriminate.
Defined.

(** ** The fork height *)

(** C5. [OnFork2] holds exactly from the fork height on, and the window
    length and the maximal reduction are 365 and 50 below it, 90 and 80 from
    it on, for any parameters and any height. *)
Theorem OnFork2_boundary (p : CChainParams) (blockHeight : Z) :
  (OnFork2 p blockHeight = true <-> blockHeight >= GetFork2Height p)
  /\ (blockHeight < GetFork2Height p ->
      OnFork2 p blockHeight = false
      /\ CEM_WindowLength p blockHeight = 365
      /\ CEM_MaxNativeBlockRewardReduction p blockHeight = 50)
  /\ (blockHeight >= GetFork2Height p ->
      CEM_WindowLength p blockHeight = 90
      /\ CEM_MaxNativeBlockRewardReduction p blockHeight = 80).
Proof.
  unfold CEM_WindowLength, CEM_MaxNativeBlockRewardReduction, OnFork2, GetFork2Height.
  destruct (Z.geb_spec blockHeight (nForkHeight2 p)) as [Hge|Hlt].
  - split; [split; [lia|reflexivity]|]. split; [lia|auto].
  - split; [split; [discriminate|lia]|]. split; [auto|lia].
Qed.

Lemma OnFork2_boundary_at_regtest :
  (CEM_WindowLength regTestParams_value (-1) = 365
   /\ CEM_MaxNativeBlockRewardReduction regTestParams_value (-1) = 50)
  /\ (CEM_WindowLength regTestParams_value 0 = 90
      /\ CEM_MaxNativeBlockRewardReduction regTestParams_value 0 = 80).
Proof.
  split.
  - apply (OnFork2_boundary regTestParams_value (-1)). reflexivity.
  - apply (OnFork2_boundary regTestParams_value 0). discriminate.
Defined.

(** ** The tables of the parameter sets *)

Lemma forallb_is_byte (l : list Z) :
  forallb (fun b => (0 <=? b) && (b <? 256)) l = true -> Forall is_byte l.
Proof.
  intros H. apply Forall_forall. intros b Hb.
  rewrite forallb_forall in H. apply list_elem_of_In in Hb. specialize (H b Hb).
  unfold is_byte. lia.
Qed.

(** C6. The three limits are [2^224 - 1], [2^248 - 1] and [2^255 - 1]: the
    limit of the regression test is above that of the test network, which is
    above that of the main network. *)
Theorem ProofOfWorkLimit_order (w : World) :
  exists g w',
    static_init w = Some (g, w')
    /\ ProofOfWorkLimit (mainParams g) = 2^224 - 1
    /\ ProofOfWorkLimit (testNetParams g) = 2^248 - 1
    /\ ProofOfWorkLimit (regTestParams g) = 2^255 - 1
    /\ ProofOfWorkLimit (mainParams g) < ProofOfWorkLimit (testNetParams g)
    /\ ProofOfWorkLimit (testNetParams g) < ProofOfWorkLimit (regTestParams g).
Proof.
  exists (globals_value w), (world_after_init w).
  split; [apply static_init_runs|].
  repeat split; reflexivity.
Qed.

(** C8. [RequireRPCPassword] answers [false] for the regression test
    parameters and [true] for the main and the test parameters; it answers
    [false] for the parameters of the regression test only. *)
Theorem RequireRPCPassword_regtest_only (w : World) :
  exists g w',
    static_init w = Some (g, w')
    /\ RequireRPCPassword (regTestParams g) = false
    /\ RequireRPCPassword (mainParams g) = true
    /\ RequireRPCPassword (testNetParams g) = true
    /\ forall p : CChainParams, RequireRPCPassword p = false <-> NetworkID p = REGTEST.
Proof.
  exists (globals_value w), (world_after_init w).
  split; [apply static_init_runs|].
  repeat split; try reflexivity;
    unfold RequireRPCPassword, NetworkID; destruct (vptr p); congruence.
Qed.

(** C9. In each of the three parameter sets every one of the five kinds of
    address has a prefix that is not empty and is a sequence of bytes, each
    element within 0..255, and two different kinds have different
    prefixes. *)
Theorem base58Prefixes_complete (w : World) :
  exists g w',
    static_init w = Some (g, w')
    /\ forall p : CChainParams,
        In p [mainParams g; testNetParams g; regTestParams g] ->
        (forall t, In t address_kinds ->
                   exists b, Base58Prefix t p = Some b /\ b <> [] /\ Forall is_byte b)
        /\ (forall t1 t2, In t1 address_kinds -> In t2 address_kinds -> t1 <> t2 ->
                          Base58Prefix t1 p <> Base58Prefix t2 p).
Proof.
  exists (globals_value w), (world_after_init w).
  split; [apply static_init_runs|].
  intros p Hp.
  assert (Hb : base58Prefixes p = [[85]; [5]; [213]; [4; 136; 178; 30]; [4; 136; 173; 228]]
               \/ base58Prefixes p = [[130]; [196]; [2]; [4; 53; 135; 207]; [4; 53; 131; 148]]).
  { cbn [In globals_value mainParams testNetParams regTestParams] in Hp.
    destruct Hp as [<-|[<-|[<-|[]]]]; [left|right|right]; reflexivity. }
  unfold Base58Prefix, address_kinds.
  split.
  - intros t Ht. cbn [In] in Ht.
    destruct Hb as [-> | ->];
      destruct Ht as [<-|[<-|[<-|[<-|[<-|[]]]]]]; eexists;
      (split; [reflexivity|split; [discriminate|apply forallb_is_byte; reflexivity]]).
  - intros t1 t2 Ht1 Ht2 Hne. cbn [In] in Ht1, Ht2.
    destruct Hb as [-> | ->];
      destruct Ht1 as [<-|[<-|[<-|[<-|[<-|[]]]]]];
      destruct Ht2 as [<-|[<-|[<-|[<-|[<-|[]]]]]];
      try (exfalso; apply Hne; reflexivity); cbn; discriminate.
Qed.

(** C10. The prefix of a secret key is the single byte 2 for the test
    network and for the regression test, which inherits it: 258 is stored
    as an [unsigned char]. *)
Theorem Base58Prefix_SECRET_KEY_testnet (w : World) :
  exists g w',
    static_init w = Some (g, w')
    /\ list_of [258] = [2]
    /\ Base58Prefix SECRET_KEY (testNetParams g) = Some [2]
    /\ Base58Prefix SECRET_KEY (regTestParams g) = Some [2]
    /\ Base58Prefix SECRET_KEY (testNetParams g) <> Some [258].
Proof.
  exists (globals_value w), (world_after_init w).
  split; [apply static_init_runs|].
  repeat split; try reflexivity. discriminate.
Qed.

(** ** The fixed seeds *)


(** Every record of the list that the loop builds is one of its
    iterations'. *)
Lemma imap_seed_address_lookup (defaultPort : Z) (w : World) (seeds : list Z) (i : nat)
      (a : CAddress) :
  imap (seed_address defaultPort w) seeds !! i = Some a ->
  exists s, seeds !! i = Some s /\ a = seed_address defaultPort w i s.
Proof.
  rewrite list_lookup_imap. destruct (seeds !! i) as [s|]; simpl; intros H.
  - exists s. split; [reflexivity|]. inversion H; reflexivity.
  - discriminate H.
Qed.




(** * Further properties of the selector *)

(** X1. A sequence of calls of [Params] and [SelectParams] aborts exactly
    when it holds a [SelectParams(MAX_NETWORK_TYPES)], the [assert(false)]
    of the default case; any other sequence runs to its end. *)
Theorem calls_abort_iff (cs : list Call) (g : Globals) :
  calls cs g = None <-> In (Call_SelectParams MAX_NETWORK_TYPES) cs.
Proof.
  revert g. induction cs as [|c cs IH]; intros g.
  - simpl. split; [discriminate|intros []].
  - destruct c as [|network]; simpl.
    + rewrite IH. split; [auto|intros [H|H]; [discriminate H|exact H]].
    + destruct network; simpl; try (rewrite IH; split; [auto|intros [H|H]; [discriminate H|exact H]]).
      split; [auto|reflexivity].
Qed.

(** The active network follows the calls, whatever the pointer was, as long
    as the three objects are of their classes. *)
Lemma calls_last_selected (cs : list Call) :
  forall g g1 : Globals,
    NetworkID (mainParams g) = MAIN -> NetworkID (testNetParams g) = TESTNET ->
    NetworkID (regTestParams g) = REGTEST ->
    calls cs g = Some g1 ->
    NetworkID (Params g1) = last_selected cs (NetworkID (Params g)).
Proof.
  induction cs as [|c cs IH]; intros g g1 Hm Ht Hr H; simpl in H.
  - inversion H; subst; reflexivity.
  - destruct c as [|network]; simpl in H |- *.
    + apply IH; assumption.
    + destruct network; simpl in H; try discriminate H;
        rewrite (IH (set_pCurrentParams _ g) g1 Hm Ht Hr H); unfold Params; cbn; congruence.
Qed.

(** X2. After the static initialisation and any calls that run to their
    end, the active parameters are those of the network of the last
    [SelectParams], and of the main network when there was none. *)
Theorem last_SelectParams_wins (w : World) :
  exists g w',
    static_init w = Some (g, w')
    /\ forall (cs : list Call) (g1 : Globals),
        calls cs g = Some g1 ->
        NetworkID (Params g1) = last_selected cs MAIN.
Proof.
  exists (globals_value w), (world_after_init w).
  split; [apply static_init_runs|].
  intros cs g1 H.
  apply (calls_last_selected cs (globals_value w) g1); auto.
Qed.

(** X3. [TestNet()] and [RegTest()] answer for the active network and never
    both hold; in regression test mode [TestNet()] is false, as the note in
    chainparams.h says. *)
Theorem TestNet_RegTest_exclusive (w : World) :
  exists g w',
    static_init w = Some (g, w')
    /\ forall (cs : list Call) (g1 : Globals),
        calls cs g = Some g1 ->
        (TestNet g1 = true <-> last_selected cs MAIN = TESTNET)
        /\ (RegTest g1 = true <-> last_selected cs MAIN = REGTEST)
        /\ (TestNet g1 && RegTest g1 = false)
        /\ exists g2, SelectParams REGTEST g1 = Some g2
                      /\ TestNet g2 = false /\ RegTest g2 = true.
Proof.
  exists (globals_value w), (world_after_init w).
  split; [apply static_init_runs|].
  intros cs g1 H.
  pose proof (calls_last_selected cs (globals_value w) g1 eq_refl eq_refl eq_refl H) as Hid.
  destruct (NetworkID_after_calls _ _ _ H) as (_ & _ & Hr).
  change (NetworkID (Params (globals_value w))) with MAIN in Hid.
  unfold TestNet, RegTest. rewrite Hid.
  split; [|split; [|split]].
  - destruct (last_selected cs MAIN); split; congruence.
  - destruct (last_selected cs MAIN); split; congruence.
  - destruct (last_selected cs MAIN); reflexivity.
  - eexists. split; [reflexivity|]. unfold Params. cbn. rewrite Hr. split; reflexivity.
Qed.

(** X4. The resolution from the command line never reaches the
    [assert(false)] of [SelectParams], and neither it nor any calls before
    it change one of the three parameter objects: only [pCurrentParams] is
    written. *)
Theorem selector_keeps_objects (GetBoolArg : string -> bool -> bool) (cs : list Call)
        (g g1 : Globals) :
  calls cs g = Some g1 ->
  exists ok g2,
    SelectParamsFromCommandLine GetBoolArg g1 = Some (ok, g2)
    /\ mainParams g2 = mainParams g
    /\ testNetParams g2 = testNetParams g
    /\ regTestParams g2 = regTestParams g.
Proof.
  intros H. destruct (calls_objects _ _ _ H) as (Hm & Ht & Hr).
  unfold SelectParamsFromCommandLine.
  destruct (GetBoolArg "-regtest"%string false), (GetBoolArg "-testnet"%string false);
    cbn; eexists _, _; (split; [reflexivity|]); cbn; auto.
Qed.

Lemma selector_keeps_objects_world0 :
  exists ok g2,
    SelectParamsFromCommandLine (fun _ _ => false)
      (set_pCurrentParams addr_testNetParams (globals_value world0)) = Some (ok, g2)
    /\ mainParams g2 = mainParams_value world0
    /\ testNetParams g2 = testNetParams_value
    /\ regTestParams g2 = regTestParams_value.
Proof.
  apply (selector_keeps_objects (fun _ _ => false) [Call_SelectParams TESTNET]
           (globals_value world0)).
  reflexivity.
Defined.

(** X5. What the resolution from the command line answers and selects
    depends on the flags alone: from any other globals it answers the same
    and, when it succeeds, selects the same parameters, and run a second
    time it changes nothing. *)
Theorem SelectParamsFromCommandLine_idempotent (GetBoolArg : string -> bool -> bool)
        (g : Globals) (ok : bool) (g' : Globals) :
  SelectParamsFromCommandLine GetBoolArg g = Some (ok, g') ->
  SelectParamsFromCommandLine GetBoolArg g' = Some (ok, g')
  /\ forall h : Globals,
      exists h',
        SelectParamsFromCommandLine GetBoolArg h = Some (ok, h')
        /\ (ok = true -> pCurrentParams h' = pCurrentParams g').
Proof.
  unfold SelectParamsFromCommandLine.
  destruct (GetBoolArg "-regtest"%string false), (GetBoolArg "-testnet"%string false);
    cbn; intros H; inversion H; subst;
    (split; [reflexivity|]); intros h; eexists; (split; [reflexivity|]);
    intros Hok; try discriminate Hok; reflexivity.
Qed.

Lemma SelectParamsFromCommandLine_idempotent_world0 :
  SelectParamsFromCommandLine (fun arg _ => String.eqb arg "-testnet")
    (set_pCurrentParams addr_testNetParams (globals_value world0))
  = Some (true, set_pCurrentParams addr_testNetParams (globals_value world0))
  /\ forall h : Globals,
      exists h',
        SelectParamsFromCommandLine (fun arg _ => String.eqb arg "-testnet") h = Some (true, h')
        /\ (true = true -> pCurrentParams h' = addr_testNetParams).
Proof.
  apply (SelectParamsFromCommandLine_idempotent
           (fun arg _ => String.eqb arg "-testnet") (globals_value world0)).
  reflexivity.
Defined.

(** * Further properties of the parameter sets *)

(** X6. Once a height is on the second fork every greater height is: the
    window length does not grow and the maximal reduction does not shrink
    with the height; the two switch together, and they are 365 or 90 days
    and 50 or 80 percent. *)
Theorem OnFork2_monotone (p : CChainParams) (h h' : Z) :
  h <= h' ->
  (OnFork2 p h = true -> OnFork2 p h' = true)
  /\ CEM_WindowLength p h' <= CEM_WindowLength p h
  /\ CEM_MaxNativeBlockRewardReduction p h <= CEM_MaxNativeBlockRewardReduction p h'
  /\ (CEM_WindowLength p h = 90 <-> CEM_MaxNativeBlockRewardReduction p h = 80)
  /\ (CEM_WindowLength p h = 365 <-> CEM_MaxNativeBlockRewardReduction p h = 50)
  /\ (CEM_WindowLength p h = 365 \/ CEM_WindowLength p h = 90)
  /\ 0 < CEM_MaxNativeBlockRewardReduction p h <= 100.
Proof.
  intros Hle.
  unfold CEM_WindowLength, CEM_MaxNativeBlockRewardReduction, OnFork2.
  destruct (Z.geb_spec h (nForkHeight2 p)), (Z.geb_spec h' (nForkHeight2 p));
    repeat split; intros; try lia; try discriminate; auto.
Qed.

Lemma OnFork2_monotone_at_testnet :
  (OnFork2 testNetParams_value (-5) = true -> OnFork2 testNetParams_value 7 = true)
  /\ CEM_WindowLength testNetParams_value 7 <= CEM_WindowLength testNetParams_value (-5)
  /\ CEM_MaxNativeBlockRewardReduction testNetParams_value (-5)
     <= CEM_MaxNativeBlockRewardReduction testNetParams_value 7
  /\ (CEM_WindowLength testNetParams_value (-5) = 90
      <-> CEM_MaxNativeBlockRewardReduction testNetParams_value (-5) = 80)
  /\ (CEM_WindowLength testNetParams_value (-5) = 365
      <-> CEM_MaxNativeBlockRewardReduction testNetParams_value (-5) = 50)
  /\ (CEM_WindowLength testNetParams_value (-5) = 365
      \/ CEM_WindowLength testNetParams_value (-5) = 90)
  /\ 0 < CEM_MaxNativeBlockRewardReduction testNetParams_value (-5) <= 100.
Proof.
  apply (OnFork2_monotone testNetParams_value (-5) 7). discriminate.
Defined.

(** X7. The interim interval is half the halving interval, rounded towards
    zero: twice it is off the halving interval by at most one and never
    beyond it. For the three parameter sets nothing is lost in the
    division; the test network keeps the halving interval of the main
    network. *)
Theorem SubsidyInterimInterval_half (w : World) :
  (forall p : CChainParams,
      Z.abs (SubsidyHalvingInterval p - 2 * SubsidyInterimInterval p) <= 1
      /\ Z.abs (2 * SubsidyInterimInterval p) <= Z.abs (SubsidyHalvingInterval p))
  /\ exists g w',
      static_init w = Some (g, w')
      /\ SubsidyHalvingInterval (testNetParams g) = SubsidyHalvingInterval (mainParams g)
      /\ SubsidyInterimInterval (mainParams g) = 394000
      /\ SubsidyInterimInterval (testNetParams g) = 394000
      /\ SubsidyInterimInterval (regTestParams g) = 75
      /\ forall p, In p [mainParams g; testNetParams g; regTestParams g] ->
                   2 * SubsidyInterimInterval p = SubsidyHalvingInterval p.
Proof.
  split.
  - intros p. unfold SubsidyInterimInterval, SubsidyHalvingInterval.
    pose proof (Z.quot_rem' (nSubsidyHalvingInterval p) 2) as Hq.
    pose proof (Z.rem_bound_abs (nSubsidyHalvingInterval p) 2 ltac:(lia)) as Hb.
    destruct (Z.le_ge_cases 0 (nSubsidyHalvingInterval p)) as [Hs|Hs].
    + pose proof (Z.rem_nonneg (nSubsidyHalvingInterval p) 2 ltac:(lia) Hs). lia.
    + pose proof (Z.rem_nonpos (nSubsidyHalvingInterval p) 2 ltac:(lia) Hs). lia.
  - exists (globals_value w), (world_after_init w).
    split; [apply static_init_runs|].
    repeat split; try reflexivity.
    intros p Hp. cbn [In globals_value mainParams testNetParams regTestParams] in Hp.
    destruct Hp as [<-|[<-|[<-|[]]]]; reflexivity.
Qed.

(** * Further properties of the fixed seeds *)

Lemma imap_pointwise {A B : Type} (P : B -> Prop) (l : list A) :
  forall f : nat -> A -> B, (forall i x, P (f i x)) -> Forall P (imap f l).
Proof.
  induction l as [|x l IH]; intros f Hf; cbn [imap].
  - constructor.
  - constructor; [apply Hf|]. apply IH. intros i y. apply Hf.
Qed.

Lemma imap_recovers {A B : Type} (proj : B -> A) (l : list A) :
  forall f : nat -> A -> B, (forall i x, proj (f i x) = x) -> map proj (imap f l) = l.
Proof.
  induction l as [|x l IH]; intros f Hf; cbn [imap map].
  - reflexivity.
  - rewrite Hf. f_equal. apply IH. intros i y. apply Hf.
Qed.

(** X8. The loop over the seeds never aborts, whatever the table, the
    object and the world. It keeps the records the object has and appends
    one per seed, in the order of the table, with the seed as address, the
    default port of the object cut to 16 bits and a timestamp within 32
    bits; it changes no other member, reads the clock and draws once per
    seed, and evaluates no assertion. *)
Theorem convert_pnSeed_appends (seeds : list Z) (this : CChainParams) (w : World) :
  exists p w' new,
    convert_pnSeed seeds this w = Some (p, w')
    /\ vFixedSeeds p = vFixedSeeds this ++ new
    /\ map (fun a => ip (service a)) new = seeds
    /\ Forall (fun a => port (service a) = GetDefaultPort this mod 2^16
                        /\ 0 <= nTime a < 2^32) new
    /\ set_vFixedSeeds (vFixedSeeds this) p = this
    /\ nClockReads w' = (length seeds + nClockReads w)%nat
    /\ nRandDraws w' = (length seeds + nRandDraws w)%nat
    /\ asserted w' = asserted w.
Proof.
  rewrite convert_pnSeed_runs.
  eexists _, _, _. split; [reflexivity|].
  split; [reflexivity|].
  split; [apply imap_recovers; reflexivity|].
  split.
  - apply imap_pointwise. intros i s. split; [reflexivity|].
    unfold seed_address. cbn [nTime]. apply Z.mod_pos_bound. reflexivity.
  - split; [destruct this; reflexivity|]. repeat split; reflexivity.
Qed.

(** X9. The fixed seeds of the main parameters are the addresses of
    [pnSeed], in its order, each with the port 9265 that the main network
    has when the loop runs. The test and the regression test parameters
    keep none of the records that the constructor of their base class
    built, and the regression test parameters have no DNS seed. *)
Theorem FixedSeeds_of_the_networks (w : World) :
  exists g w',
    static_init w = Some (g, w')
    /\ map (fun a => ip (service a)) (FixedSeeds (mainParams g)) = pnSeed
    /\ Forall (fun a => port (service a) = 9265) (FixedSeeds (mainParams g))
    /\ FixedSeeds (testNetParams g) = []
    /\ FixedSeeds (regTestParams g) = []
    /\ DNSSeeds (regTestParams g) = []
    /\ map host (DNSSeeds (mainParams g)) = ["seed.bitmark.co"%string]
    /\ map host (DNSSeeds (testNetParams g))
       = ["us.bitmark.io"%string; "explorer.bitmark.co"%string].
Proof.
  exists (globals_value w), (world_after_init w).
  split; [apply static_init_runs|].
  split; [reflexivity|].
  split; [repeat constructor|].
  repeat split; reflexivity.
Qed.

(** X10. The clock and the random source reach the timestamps of the fixed
    seeds of the main parameters and nothing else: in two worlds the static
    initialisation builds the same test and regression test parameters, and
    main parameters that are the same up to the [nTime] of their fixed
    seeds. *)
Theorem static_init_world_independent (w1 w2 : World) :
  exists g1 w1' g2 w2',
    static_init w1 = Some (g1, w1')
    /\ static_init w2 = Some (g2, w2')
    /\ testNetParams g1 = testNetParams g2
    /\ regTestParams g1 = regTestParams g2
    /\ pCurrentParams g1 = pCurrentParams g2
    /\ set_vFixedSeeds [] (mainParams g1) = set_vFixedSeeds [] (mainParams g2)
    /\ map service (FixedSeeds (mainParams g1)) = map service (FixedSeeds (mainParams g2)).
Proof.
  exists (globals_value w1), (world_after_init w1), (globals_value w2), (world_after_init w2).
  split; [apply static_init_runs|]. split; [apply static_init_runs|].
  repeat split; reflexivity.
Qed.

(** * Further properties of the three parameter sets *)

(** X11. What a constructor does not assign its object keeps from the
    constructor of its base class. The test parameters keep the halving
    interval and the block version of the main parameters and pay the same
    output; the regression test parameters keep the alert key, the RPC port,
    the five prefixes and the transaction, Merkle root and version of the
    genesis block of the test parameters. The three agree on the chain
    identity of merged mining and on the fork height. *)
Theorem parameters_inherited (w : World) :
  exists g w',
    static_init w = Some (g, w')
    /\ SubsidyHalvingInterval (testNetParams g) = SubsidyHalvingInterval (mainParams g)
    /\ CBlock.nVersion (GenesisBlock (testNetParams g))
       = CBlock.nVersion (GenesisBlock (mainParams g))
    /\ map CTransaction.vout (CBlock.vtx (GenesisBlock (testNetParams g)))
       = map CTransaction.vout (CBlock.vtx (GenesisBlock (mainParams g)))
    /\ AlertKey (regTestParams g) = AlertKey (testNetParams g)
    /\ RPCPort (regTestParams g) = RPCPort (testNetParams g)
    /\ (forall t, Base58Prefix t (regTestParams g) = Base58Prefix t (testNetParams g))
    /\ CBlock.vtx (GenesisBlock (regTestParams g)) = CBlock.vtx (GenesisBlock (testNetParams g))
    /\ CBlock.hashMerkleRoot (GenesisBlock (regTestParams g))
       = CBlock.hashMerkleRoot (GenesisBlock (testNetParams g))
    /\ CBlock.nVersion (GenesisBlock (regTestParams g))
       = CBlock.nVersion (GenesisBlock (testNetParams g))
    /\ forall p q,
        In p [mainParams g; testNetParams g; regTestParams g] ->
        In q [mainParams g; testNetParams g; regTestParams g] ->
        StrictChainId p = StrictChainId q
        /\ GetAuxpowChainId p = GetAuxpowChainId q
        /\ GetFork2Height p = GetFork2Height q.
Proof.
  exists (globals_value w), (world_after_init w).
  split; [apply static_init_runs|].
  do 9 (split; [reflexivity|]).
  intros p q Hp Hq.
  cbn [In globals_value mainParams testNetParams regTestParams] in Hp, Hq.
  destruct Hp as [<-|[<-|[<-|[]]]]; destruct Hq as [<-|[<-|[<-|[]]]];
    repeat split; reflexivity.
Qed.

(** X12. Parameter sets of two different networks differ in the message
    start, the default port, the data directory and the hash of the genesis
    block; and every kind of address has another prefix on the main network
    than on the test network. *)
Theorem networks_told_apart (w : World) :
  exists g w',
    static_init w = Some (g, w')
    /\ NetworkID (mainParams g) = MAIN
    /\ NetworkID (testNetParams g) = TESTNET
    /\ NetworkID (regTestParams g) = REGTEST
    /\ (forall p q,
          In p [mainParams g; testNetParams g; regTestParams g] ->
          In q [mainParams g; testNetParams g; regTestParams g] ->
          NetworkID p <> NetworkID q ->
          MessageStart p <> MessageStart q
          /\ GetDefaultPort p <> GetDefaultPort q
          /\ DataDir p <> DataDir q
          /\ HashGenesisBlock p <> HashGenesisBlock q)
    /\ forall t, In t address_kinds ->
                 Base58Prefix t (mainParams g) <> Base58Prefix t (testNetParams g).
Proof.
  exists (globals_value w), (world_after_init w).
  split; [apply static_init_runs|].
  do 3 (split; [reflexivity|]).
  split.
  - intros p q Hp Hq Hne.
    cbn [In globals_value mainParams testNetParams regTestParams] in Hp, Hq.
    destruct Hp as [<-|[<-|[<-|[]]]]; destruct Hq as [<-|[<-|[<-|[]]]];
      try (exfalso; apply Hne; reflexivity);
      repeat split; intros Heq; vm_compute in Heq; discriminate Heq.
  - intros t Ht. unfold address_kinds in Ht. cbn [In] in Ht.
    destruct Ht as [<-|[<-|[<-|[<-|[<-|[]]]]]]; intros Heq; vm_compute in Heq;
      discriminate Heq.
Qed.

(** X13. The genesis block of each parameter set has no previous block, the
    version 1 and one transaction, with one input that spends nothing and
    one output of 20 coins; and its Merkle root is the root of the
    transactions it holds: the test constructor replaces the transaction in
    place and takes the root again. *)
Theorem genesis_block_structure (w : World) :
  exists g w',
    static_init w = Some (g, w')
    /\ CBlock.vtx (GenesisBlock (mainParams g))
       = [genesis_txNew "13/July/2014, with memory of the past, we look to the future. TDR"]
    /\ CBlock.vtx (GenesisBlock (testNetParams g)) = [genesis_txNew "Testing Testnet"]
    /\ forall p,
        In p [mainParams g; testNetParams g; regTestParams g] ->
        CBlock.hashPrevBlock (GenesisBlock p) = 0
        /\ CBlock.nVersion (GenesisBlock p) = 1
        /\ CBlock.hashMerkleRoot (GenesisBlock p) = BuildMerkleTree (GenesisBlock p)
        /\ exists txin txout,
            map (fun tx => (CTransaction.vin tx, CTransaction.vout tx))
                (CBlock.vtx (GenesisBlock p)) = [([txin], [txout])]
            /\ CTxIn.prevout txin = COutPoint.Build 0 (2^32 - 1)
            /\ CTxOut.nValue txout = 20 * COIN.
Proof.
  exists (globals_value w), (world_after_init w).
  split; [apply static_init_runs|].
  split; [vm_compute; reflexivity|]. split; [vm_compute; reflexivity|].
  intros p Hp. cbn [In globals_value mainParams testNetParams regTestParams] in Hp.
  destruct Hp as [<-|[<-|[<-|[]]]].
  - change (GenesisBlock (mainParams_value w)) with (genesis mainParams_line73).
    split; [reflexivity|]. split; [reflexivity|]. split; [vm_compute; reflexivity|].
    eexists _, _. split; [vm_compute; reflexivity|]. split; reflexivity.
  - split; [reflexivity|]. split; [reflexivity|]. split; [vm_compute; reflexivity|].
    eexists _, _. split; [vm_compute; reflexivity|]. split; reflexivity.
  - split; [reflexivity|]. split; [reflexivity|]. split; [vm_compute; reflexivity|].
    eexists _, _. split; [vm_compute; reflexivity|]. split; reflexivity.
Qed.

(** X14. What the constructors store into [pchMessageStart] and
    [base58Prefixes] is read back, element by element: each parameter set
    has the four bytes of the message start that its own constructor stored
    last and one prefix per kind of address, the test prefixes also for the
    regression test. [MAX_BASE58_TYPES] is past the end of the array, the
    alert key has 65 bytes, and every element of the message start, of the
    alert key and of the prefixes fits an [unsigned char]. *)
Theorem constructor_stores_read_back (w : World) :
  exists g w',
    static_init w = Some (g, w')
    /\ MessageStart (mainParams g) = [0xf9; 0xbe; 0xb4; 0xd9]
    /\ MessageStart (testNetParams g) = [0x0b; 0x11; 0x09; 0x07]
    /\ MessageStart (regTestParams g) = [0xfa; 0xbf; 0xb5; 0xda]
    /\ map (fun t => Base58Prefix t (mainParams g)) address_kinds
       = map Some [list_of [85]; list_of [5]; list_of [213];
                   list_of [0x04; 0x88; 0xB2; 0x1E]; list_of [0x04; 0x88; 0xAD; 0xE4]]
    /\ map (fun t => Base58Prefix t (testNetParams g)) address_kinds
       = map Some [list_of [130]; list_of [196]; list_of [258];
                   list_of [0x04; 0x35; 0x87; 0xCF]; list_of [0x04; 0x35; 0x83; 0x94]]
    /\ map (fun t => Base58Prefix t (regTestParams g)) address_kinds
       = map (fun t => Base58Prefix t (testNetParams g)) address_kinds
    /\ forall p,
        In p [mainParams g; testNetParams g; regTestParams g] ->
        length (MessageStart p) = MESSAGE_START_SIZE
        /\ Forall is_byte (MessageStart p)
        /\ length (AlertKey p) = 65%nat
        /\ Forall is_byte (AlertKey p)
        /\ length (base58Prefixes p) = Base58Type_index MAX_BASE58_TYPES
        /\ Base58Prefix MAX_BASE58_TYPES p = None
        /\ Forall (Forall is_byte) (base58Prefixes p).
Proof.
  exists (globals_value w), (world_after_init w).
  split; [apply static_init_runs|].
  do 6 (split; [reflexivity|]).
  intros p Hp. cbn [In globals_value mainParams testNetParams regTestParams] in Hp.
  destruct Hp as [<-|[<-|[<-|[]]]];
    (split; [reflexivity|]);
    (split; [apply forallb_is_byte; reflexivity|]);
    (split; [reflexivity|]);
    (split; [apply forallb_is_byte; reflexivity|]);
    (split; [reflexivity|]);
    (split; [reflexivity|]);
    repeat (constructor; [apply forallb_is_byte; reflexivity|]); constructor.
Qed.


